(** * Product catalog service ([src/productcatalog/app.py])

    A shallow embedding of the Flask handlers of the product catalog
    service and of the telemetry they emit, with the properties of the
    catalog lookup, the text search and the request metrics.

    Modelling conventions.
    - A Python [str] is a [string]; a character is one of the first 256
      code points (Latin-1), on which [str.lower] acts character by
      character.
    - The dictionaries of [PRODUCTS] have a fixed set of keys and are
      records; [product_json] gives back the JSON object that [jsonify]
      serialises.
      The module [Wide] adds five code points beyond those, to follow
      the echoed query of the search where lowercasing is not a shift
      by 32.
    - Python floats (clock readings, durations) are rationals.
    - The handlers run in a state monad over [World]: the wall clock, the
      random source, the spans, the two metric instruments and the log. *)

From Stdlib Require Import String Ascii List Bool ZArith NArith QArith Lia.
From Stdlib Require Import DecimalString.
Import ListNotations.
Local Open Scope string_scope.

(* ===================================================================== *)
(** ** Strings: [str.lower] and the [in] operator *)
(* ===================================================================== *)

Module Str.

(** Code points with a lowercase mapping among the first 256: [A-Z] and
    the Latin-1 capitals U+00C0..U+00DE without the multiplication sign
    U+00D7. *)
Definition isupper_char (c : ascii) : bool :=
  let n := N_of_ascii c in
  ((65 <=? n) && (n <=? 90) ||
   (192 <=? n) && (n <=? 222) && negb (n =? 215))%N.

(** The lowercase of a capital is 32 code points further. *)
Definition lower_char (c : ascii) : ascii :=
  if isupper_char c then ascii_of_N (N_of_ascii c + 32) else c.

(** [s.lower()] *)
Fixpoint lower (s : string) : string :=
  match s with
  | EmptyString => EmptyString
  | String c s' => String (lower_char c) (lower s')
  end.

(** [s.startswith(q)] *)
Fixpoint startswith (q s : string) : bool :=
  match q, s with
  | EmptyString, _ => true
  | String _ _, EmptyString => false
  | String a q', String b s' => Ascii.eqb a b && startswith q' s'
  end.

(** [q in s] on strings: [q] occurs in [s] at some offset. *)
Fixpoint contains (q s : string) : bool :=
  startswith q s ||
  match s with
  | EmptyString => false
  | String _ s' => contains q s'
  end.

(** Truth value of a string: the empty string is false. *)
Definition truthy (s : string) : bool :=
  match s with
  | EmptyString => false
  | String _ _ => true
  end.

(** [q] is a substring of [s]: some text before it and some after. *)
Definition Substring (q s : string) : Prop :=
  exists pre post, s = pre ++ q ++ post.

(** Whitespace of the ASCII range: space, tab, line feed, vertical tab,
    form feed, carriage return. *)
Definition isspace_char (c : ascii) : bool :=
  let n := N_of_ascii c in
  ((n =? 32) || (9 <=? n) && (n <=? 13))%N.

(** Every character of [s] is whitespace: what [s.strip()] would remove
    from the two ends of a string. *)
Fixpoint all_space (s : string) : bool :=
  match s with
  | EmptyString => true
  | String c s' => isspace_char c && all_space s'
  end.

End Str.

(* ===================================================================== *)
(** ** Data model: products, the catalog, JSON values *)
(* ===================================================================== *)

(** ["price_usd": {"currency_code": ..., "units": ..., "nanos": ...}] *)
Record Money := mkMoney {
  currency_code : string;
  units : Z;
  nanos : Z
}.

(** One entry of [PRODUCTS]. *)
Record Product := mkProduct {
  id : string;
  name : string;
  description : string;
  picture : string;
  price_usd : Money;
  categories : list string
}.

(** JSON values, objects with their keys in insertion order. *)
#[warnings="-register-all"]
Inductive json : Type :=
| JStr (s : string)
| JInt (n : Z)
| JBool (b : bool)
| JArr (items : list json)
| JObj (fields : list (string * json)).

Definition money_json (m : Money) : json :=
  JObj [("currency_code", JStr (currency_code m));
        ("units", JInt (units m));
        ("nanos", JInt (nanos m))].

(** The dictionary a product is in the source. *)
Definition product_json (p : Product) : json :=
  JObj [("id", JStr (id p));
        ("name", JStr (name p));
        ("description", JStr (description p));
        ("picture", JStr (picture p));
        ("price_usd", money_json (price_usd p));
        ("categories", JArr (map JStr (categories p)))].

(** Sample product data. *)
Definition PRODUCTS : list Product :=
  [ mkProduct "OLJCESPC7Z" "Vintage Typewriter"
      "This typewriter looks good in your living room."
      "/static/img/products/typewriter.jpg"
      (mkMoney "USD" 67 990000000)
      ["vintage"];
    mkProduct "66VCHSJNUP" "Vintage Camera Lens"
      "You won't have a camera to use it and it probably doesn't work anyway."
      "/static/img/products/camera-lens.jpg"
      (mkMoney "USD" 12 490000000)
      ["photography"; "vintage"];
    mkProduct "1YMWWN1N4O" "Home Barista Kit"
      "Always wanted to brew coffee with Chemex and Aeropress at home?"
      "/static/img/products/barista-kit.jpg"
      (mkMoney "USD" 124 0)
      ["kitchen"];
    mkProduct "L9ECAV7KIM" "Terrarium"
      "This terrarium will looks great in your white painted living room."
      "/static/img/products/terrarium.jpg"
      (mkMoney "USD" 36 450000000)
      ["gardening"];
    mkProduct "2ZYFJ3GM2N" "Film Camera"
      "This camera looks like it's a film camera, but it's actually digital."
      "/static/img/products/film-camera.jpg"
      (mkMoney "USD" 2245 0)
      ["photography"; "vintage"] ].

(* ===================================================================== *)
(** ** The world the handlers run in *)
(* ===================================================================== *)

(** Values of span attributes. *)
Inductive AttrValue : Type :=
| AStr (s : string)
| ABool (b : bool)
| AInt (n : Z).

(** The attribute dictionary passed with a measurement. *)
Definition Labels := list (string * string).

Record Span := mkSpan {
  span_name : string;
  span_attributes : list (string * AttrValue)
}.

Inductive LogLevel : Type := INFO | WARNING.

(** [now] is what [time.time()] reads; [random_source] is the stream of
    values of [random.random()] and [random_drawn] how many were taken;
    [active_spans] is the stack of spans entered and not yet left;
    [request_counter] and [request_duration] hold the measurements of the
    two instruments in the order they were made. *)
Record World := mkWorld {
  now : Q;
  random_source : nat -> Q;
  random_drawn : nat;
  active_spans : list Span;
  ended_spans : list Span;
  request_counter : list (Z * Labels);
  request_duration : list (Q * Labels);
  logger : list (LogLevel * string)
}.

(** The part of Flask's [request] the handlers read. *)
Record Request := mkRequest {
  method : string;
  url : string;
  args : list (string * string)
}.

Record Response := mkResponse {
  status : Z;
  body : json
}.

(** State monad over [World]. *)
Definition M (A : Type) : Type := World -> A * World.

Definition ret {A} (a : A) : M A := fun w => (a, w).

Definition bind {A B} (m : M A) (k : A -> M B) : M B :=
  fun w => let (a, w') := m w in k a w'.

Declare Scope handler_scope.
Delimit Scope handler_scope with handler.
Notation "x <- m ;; k" := (bind m (fun x => k))
  (at level 61, m at next level, right associativity) : handler_scope.
Notation "m ;; k" := (bind m (fun _ => k))
  (at level 61, right associativity) : handler_scope.
Local Open Scope handler_scope.

Definition set_now (t : Q) (w : World) : World :=
  mkWorld t (random_source w) (random_drawn w) (active_spans w)
    (ended_spans w) (request_counter w) (request_duration w) (logger w).

Definition set_random_drawn (n : nat) (w : World) : World :=
  mkWorld (now w) (random_source w) n (active_spans w)
    (ended_spans w) (request_counter w) (request_duration w) (logger w).

Definition set_spans (act fin : list Span) (w : World) : World :=
  mkWorld (now w) (random_source w) (random_drawn w) act fin
    (request_counter w) (request_duration w) (logger w).

Definition set_request_counter (c : list (Z * Labels)) (w : World) : World :=
  mkWorld (now w) (random_source w) (random_drawn w) (active_spans w)
    (ended_spans w) c (request_duration w) (logger w).

Definition set_request_duration (h : list (Q * Labels)) (w : World) : World :=
  mkWorld (now w) (random_source w) (random_drawn w) (active_spans w)
    (ended_spans w) (request_counter w) h (logger w).

Definition set_logger (l : list (LogLevel * string)) (w : World) : World :=
  mkWorld (now w) (random_source w) (random_drawn w) (active_spans w)
    (ended_spans w) (request_counter w) (request_duration w) l.

(** [time.time()] *)
Definition time_time : M Q := fun w => (now w, w).

(** [time.sleep(d)] *)
Definition time_sleep (d : Q) : M unit :=
  fun w => (tt, set_now (now w + d)%Q w).

(** [random.uniform(a, b)], that is [a + (b - a) * random()]. *)
Definition random_uniform (a b : Q) : M Q :=
  fun w => ((a + (b - a) * random_source w (random_drawn w))%Q,
            set_random_drawn (S (random_drawn w)) w).

(** Assignment [d[k] = v] on a dictionary kept in insertion order. *)
Fixpoint dict_set {V} (k : string) (v : V) (d : list (string * V))
  : list (string * V) :=
  match d with
  | [] => [(k, v)]
  | (k', v') :: d' =>
      if String.eqb k' k then (k, v) :: d' else (k', v') :: dict_set k v d'
  end.

(** [span.set_attribute(key, value)] on the span of the enclosing [with]. *)
Definition set_attribute (key : string) (value : AttrValue) : M unit :=
  fun w =>
    match active_spans w with
    | [] => (tt, w)
    | s :: rest =>
        (tt, set_spans
               (mkSpan (span_name s) (dict_set key value (span_attributes s))
                  :: rest)
               (ended_spans w) w)
    end.

(** [with tracer.start_as_current_span(name) as span: body]: the span is
    entered, the body runs, and the span is ended when the block is left. *)
Definition start_as_current_span {A} (span : string) (body : M A) : M A :=
  fun w =>
    let (a, w') :=
      body (set_spans (mkSpan span [] :: active_spans w) (ended_spans w) w) in
    match active_spans w' with
    | [] => (a, w')
    | s :: rest => (a, set_spans rest (ended_spans w' ++ [s]) w')
    end.

(** [request_counter.add(amount, labels)] *)
Definition request_counter_add (amount : Z) (labels : Labels) : M unit :=
  fun w => (tt, set_request_counter (request_counter w ++ [(amount, labels)]) w).

(** [request_duration.record(amount, labels)] *)
Definition request_duration_record (amount : Q) (labels : Labels) : M unit :=
  fun w =>
    (tt, set_request_duration (request_duration w ++ [(amount, labels)]) w).

Definition logger_info (msg : string) : M unit :=
  fun w => (tt, set_logger (logger w ++ [(INFO, msg)]) w).

Definition logger_warning (msg : string) : M unit :=
  fun w => (tt, set_logger (logger w ++ [(WARNING, msg)]) w).

(** [jsonify(value)]: a response with status 200. *)
Definition jsonify (value : json) : Response := mkResponse 200 value.

(** [return response, code] *)
Definition with_status (r : Response) (code : Z) : Response :=
  mkResponse code (body r).

(** [request.args.get(key, default)]: the first value given for [key]. *)
Fixpoint args_get (key default : string) (a : list (string * string))
  : string :=
  match a with
  | [] => default
  | (k, v) :: a' => if String.eqb k key then v else args_get key default a'
  end.

(** [len(l)] as the integer it is serialised as. *)
Definition len {A} (l : list A) : Z := Z.of_nat (length l).

(** An integer inside an f-string. *)
Definition str_of_int (n : Z) : string :=
  NilZero.string_of_int (Z.to_int n).

(* ===================================================================== *)
(** ** The handlers *)
(* ===================================================================== *)

(** [next((p for p in products if p["id"] == product_id), None)] *)
Fixpoint next_by_id (products : list Product) (product_id : string)
  : option Product :=
  match products with
  | [] => None
  | p :: rest =>
      if String.eqb (id p) product_id then Some p
      else next_by_id rest product_id
  end.

(** The condition of the comprehension in [search_products]. *)
Definition query_in_product (query : string) (p : Product) : bool :=
  Str.contains query (Str.lower (name p)) ||
  Str.contains query (Str.lower (description p)) ||
  existsb (fun cat => Str.contains query (Str.lower cat)) (categories p).

(** Health check endpoint *)
Definition health_check : M Response :=
  ret (jsonify (JObj [("status", JStr "healthy");
                      ("service", JStr "productcatalog")])).

(** List all products *)
Definition list_products (request : Request) : M Response :=
  start_time <- time_time ;;
  start_as_current_span "list_products" (
    set_attribute "product.count" (AInt (len PRODUCTS)) ;;
    delay <- random_uniform 0.01 0.05 ;;
    time_sleep delay ;;
    set_attribute "http.method" (AStr (method request)) ;;
    set_attribute "http.url" (AStr (url request)) ;;
    request_counter_add 1 [("endpoint", "/products"); ("method", "GET")] ;;
    end_time <- time_time ;;
    let duration := (end_time - start_time)%Q in
    request_duration_record duration
      [("endpoint", "/products"); ("method", "GET")] ;;
    logger_info ("Listed " ++ str_of_int (len PRODUCTS) ++ " products") ;;
    ret (jsonify (JObj [("products", JArr (map product_json PRODUCTS))]))).

(** Get a specific product by ID *)
Definition get_product (request : Request) (product_id : string)
  : M Response :=
  start_time <- time_time ;;
  start_as_current_span "get_product" (
    set_attribute "product.id" (AStr product_id) ;;
    set_attribute "http.method" (AStr (method request)) ;;
    set_attribute "http.url" (AStr (url request)) ;;
    delay <- random_uniform 0.005 0.02 ;;
    time_sleep delay ;;
    (* [if product:] a product is a non-empty dictionary, hence true *)
    match next_by_id PRODUCTS product_id with
    | Some product =>
        set_attribute "product.found" (ABool true) ;;
        set_attribute "product.name" (AStr (name product)) ;;
        request_counter_add 1
          [("endpoint", "/products/{id}"); ("method", "GET");
           ("status", "found")] ;;
        end_time <- time_time ;;
        let duration := (end_time - start_time)%Q in
        request_duration_record duration
          [("endpoint", "/products/{id}"); ("method", "GET");
           ("status", "found")] ;;
        logger_info ("Found product: " ++ name product) ;;
        ret (jsonify (product_json product))
    | None =>
        set_attribute "product.found" (ABool false) ;;
        set_attribute "error" (ABool true) ;;
        request_counter_add 1
          [("endpoint", "/products/{id}"); ("method", "GET");
           ("status", "not_found")] ;;
        end_time <- time_time ;;
        let duration := (end_time - start_time)%Q in
        request_duration_record duration
          [("endpoint", "/products/{id}"); ("method", "GET");
           ("status", "not_found")] ;;
        logger_warning ("Product not found: " ++ product_id) ;;
        ret (with_status
               (jsonify (JObj [("error", JStr "Product not found")])) 404)
    end).

(** Search products by query *)
Definition search_products (request : Request) : M Response :=
  start_time <- time_time ;;
  let query := Str.lower (args_get "q" "" (args request)) in
  start_as_current_span "search_products" (
    set_attribute "search.query" (AStr query) ;;
    set_attribute "http.method" (AStr (method request)) ;;
    set_attribute "http.url" (AStr (url request)) ;;
    delay <- random_uniform 0.02 0.08 ;;
    time_sleep delay ;;
    let filtered_products :=
      if Str.truthy query
      then filter (query_in_product query) PRODUCTS
      else PRODUCTS in
    set_attribute "search.results_count" (AInt (len filtered_products)) ;;
    request_counter_add 1
      [("endpoint", "/products/search"); ("method", "GET")] ;;
    end_time <- time_time ;;
    let duration := (end_time - start_time)%Q in
    request_duration_record duration
      [("endpoint", "/products/search"); ("method", "GET")] ;;
    logger_info ("Search for '" ++ query ++ "' returned "
                 ++ str_of_int (len filtered_products) ++ " results") ;;
    ret (jsonify (JObj [("query", JStr query);
                        ("products", JArr (map product_json filtered_products));
                        ("total", JInt (len filtered_products))]))).

(** The four rules registered with [@app.route]; [RProduct] carries the
    value of the [<product_id>] part of the path. *)
Inductive Route : Type :=
| RHealth
| RProducts
| RProduct (product_id : string)
| RSearch.

(** The view function of a route, applied to the request. *)
Definition view (r : Route) (request : Request) : M Response :=
  match r with
  | RHealth => health_check
  | RProducts => list_products request
  | RProduct product_id => get_product request product_id
  | RSearch => search_products request
  end.

(** A request with [?q=...], and one without. *)
Definition search_request (q : string) : Request :=
  mkRequest "GET" "/products/search" [("q", q)].

Definition plain_request (path : string) : Request :=
  mkRequest "GET" path [].

(** A world in which nothing has happened yet. *)
Definition fresh_world : World :=
  mkWorld 0 (fun _ => 1 # 2) 0 [] [] [] [] [].

(* ===================================================================== *)
(** ** Specification vocabulary *)
(* ===================================================================== *)

(** A product matches a query when the query is a substring of the
    lowercased name, or of the lowercased description, or of at least one
    lowercased category tag. *)
Definition Matches (q : string) (p : Product) : Prop :=
  Str.Substring q (Str.lower (name p)) \/
  Str.Substring q (Str.lower (description p)) \/
  exists cat, In cat (categories p) /\ Str.Substring q (Str.lower cat).

(** [l1] is [l2] with some elements left out, the others in their order. *)
Inductive Subseq {A : Type} : list A -> list A -> Prop :=
| Subseq_nil : Subseq [] []
| Subseq_keep x l1 l2 : Subseq l1 l2 -> Subseq (x :: l1) (x :: l2)
| Subseq_drop x l1 l2 : Subseq l1 l2 -> Subseq l1 (x :: l2).

(** The body of a search response. *)
Definition search_body (query : string) (products : list Product) : json :=
  JObj [("query", JStr query);
        ("products", JArr (map product_json products));
        ("total", JInt (len products))].

(** The labels each route passes to the two instruments, given the status
    of the response. *)
Definition route_labels (r : Route) (code : Z) : Labels :=
  match r with
  | RHealth => []
  | RProducts => [("endpoint", "/products"); ("method", "GET")]
  | RProduct _ =>
      [("endpoint", "/products/{id}"); ("method", "GET");
       ("status", if (code =? 200)%Z then "found" else "not_found")]
  | RSearch => [("endpoint", "/products/search"); ("method", "GET")]
  end.

(** The products [search_products] selects for a lowercased query. *)
Definition filtered_products (query : string) : list Product :=
  if Str.truthy query
  then filter (query_in_product query) PRODUCTS
  else PRODUCTS.

(** The labels of the two branches of [get_product]. *)
Definition found_labels : Labels :=
  [("endpoint", "/products/{id}"); ("method", "GET"); ("status", "found")].

Definition not_found_labels : Labels :=
  [("endpoint", "/products/{id}"); ("method", "GET");
   ("status", "not_found")].

(** The value [random.uniform(lo, hi)] takes in world [w]. *)
Definition uniform_draw (lo hi : Q) (w : World) : Q :=
  (lo + (hi - lo) * random_source w (random_drawn w))%Q.

(** The bounds each handler passes to [random.uniform] for its sleep. *)
Definition sleep_range (r : Route) : option (Q * Q) :=
  match r with
  | RHealth => None
  | RProducts => Some (0.01, 0.05)%Q
  | RProduct _ => Some (0.005, 0.02)%Q
  | RSearch => Some (0.02, 0.08)%Q
  end.

(** The name of the span each handler opens. *)
Definition route_span_name (r : Route) : option string :=
  match r with
  | RHealth => None
  | RProducts => Some "list_products"
  | RProduct _ => Some "get_product"
  | RSearch => Some "search_products"
  end.

(** Requests served one after the other, each by the view of its route,
    on the world the previous one left. *)
Fixpoint serve (requests : list (Route * Request)) : M (list Response) :=
  match requests with
  | [] => ret []
  | (r, request) :: rest =>
      response <- view r request ;;
      responses <- serve rest ;;
      ret (response :: responses)
  end.

(** Whether a route is one of the three product routes. *)
Definition is_product_route (r : Route) : bool :=
  match r with
  | RHealth => false
  | _ => true
  end.

(** [d.get(key)] on a dictionary kept in insertion order. *)
Fixpoint dict_get {V} (k : string) (d : list (string * V)) : option V :=
  match d with
  | [] => None
  | (k', v) :: d' => if String.eqb k' k then Some v else dict_get k d'
  end.

(** The claim as the specification words it, for the method: the one
    counter increment and the one duration record of a product request
    carry the same labels, and these name the method of that request. *)
Definition labels_match_the_method_taken : Prop :=
  forall (r : Route) (request : Request) (w : World),
    is_product_route r = true ->
    exists (labels : Labels) (seconds : Q),
      request_counter (snd (view r request w)) =
        (request_counter w ++ [(1%Z, labels)])%list /\
      request_duration (snd (view r request w)) =
        (request_duration w ++ [(seconds, labels)])%list /\
      dict_get "method" labels = Some (method request).

(** The [endpoint] label of each product route. *)
Definition route_endpoint (r : Route) : string :=
  match r with
  | RHealth => "/health"
  | RProducts => "/products"
  | RProduct _ => "/products/{id}"
  | RSearch => "/products/search"
  end.

(** Whether a measurement carries the label [status = s]. *)
Definition has_status {V} (s : string) (point : V * Labels) : bool :=
  match dict_get "status" (snd point) with
  | Some v => String.eqb v s
  | None => false
  end.

(** The length of the longest text of a product that the search looks
    at: its name, its description or one of its category tags. *)
Definition text_width (p : Product) : nat :=
  fold_right Nat.max
    (Nat.max (String.length (name p)) (String.length (description p)))
    (map String.length (categories p)).

(* ===================================================================== *)
(** ** The search response on a wider alphabet *)
(* ===================================================================== *)

(** The return value of [search_products] on strings whose characters
    are the first 256 code points or one of five further code points of
    Unicode, among them uppercase letters that [str.lower] lengthens,
    sends into ASCII, or leaves as they are. The texts of the catalog
    are ASCII and enter through [of_string]. *)
Module Wide.

Inductive uchar : Type :=
| Latin1 (c : ascii)  (* U+0000 .. U+00FF *)
| U0130               (* LATIN CAPITAL LETTER I WITH DOT ABOVE *)
| U0307               (* COMBINING DOT ABOVE *)
| U03D2               (* GREEK UPSILON WITH HOOK SYMBOL *)
| U2102               (* DOUBLE-STRUCK CAPITAL C *)
| U212A.              (* KELVIN SIGN *)

Definition ustring := list uchar.

Definition codepoint (c : uchar) : N :=
  match c with
  | Latin1 a => N_of_ascii a
  | U0130 => 304
  | U0307 => 775
  | U03D2 => 978
  | U2102 => 8450
  | U212A => 8490
  end.

(** Two characters are equal when their code points are. *)
Definition eqb (a b : uchar) : bool := (codepoint a =? codepoint b)%N.

(** Uppercase letters (general category Lu): the capitals of Latin-1 and
    four of the five further characters; the combining dot is a mark. *)
Definition isupper_char (c : uchar) : bool :=
  match c with
  | Latin1 a => Str.isupper_char a
  | U0307 => false
  | U0130 | U03D2 | U2102 | U212A => true
  end.

(** [c.lower()]: U+0130 becomes [i] and a combining dot, the Kelvin sign
    becomes [k], U+03D2 and U+2102 have no lowercase form. *)
Definition lower_char (c : uchar) : ustring :=
  match c with
  | Latin1 a => [Latin1 (Str.lower_char a)]
  | U0130 => [Latin1 "i"; U0307]
  | U0307 => [U0307]
  | U03D2 => [U03D2]
  | U2102 => [U2102]
  | U212A => [Latin1 "k"]
  end.

(** [s.lower()] *)
Fixpoint lower (s : ustring) : ustring :=
  match s with
  | [] => []
  | c :: s' => (lower_char c ++ lower s')%list
  end.

Fixpoint startswith (q s : ustring) : bool :=
  match q, s with
  | [], _ => true
  | _ :: _, [] => false
  | a :: q', b :: s' => eqb a b && startswith q' s'
  end.

(** [q in s] *)
Fixpoint contains (q s : ustring) : bool :=
  startswith q s ||
  match s with
  | [] => false
  | _ :: s' => contains q s'
  end.

Definition truthy (s : ustring) : bool :=
  match s with
  | [] => false
  | _ :: _ => true
  end.

(** [a == b] on strings. *)
Fixpoint eqb_string (a b : ustring) : bool :=
  match a, b with
  | [], [] => true
  | x :: a', y :: b' => eqb x y && eqb_string a' b'
  | _, _ => false
  end.

(** A string of the first 256 code points as a string of this alphabet. *)
Fixpoint of_string (s : string) : ustring :=
  match s with
  | EmptyString => []
  | String c s' => Latin1 c :: of_string s'
  end.

Definition of_args (a : list (string * string)) : list (ustring * ustring) :=
  map (fun kv => (of_string (fst kv), of_string (snd kv))) a.

(** [request.args.get(key, default)] *)
Fixpoint args_get (key default : ustring) (a : list (ustring * ustring))
  : ustring :=
  match a with
  | [] => default
  | (k, v) :: a' => if eqb_string k key then v else args_get key default a'
  end.

(** The condition of the comprehension in [search_products]. *)
Definition query_in_product (query : ustring) (p : Product) : bool :=
  contains query (lower (of_string (name p))) ||
  contains query (lower (of_string (description p))) ||
  existsb (fun cat => contains query (lower (of_string cat))) (categories p).

(** The dictionary [search_products] passes to [jsonify]. *)
Record SearchBody := mkSearchBody {
  query : ustring;
  products : list Product;
  total : Z
}.

(** What [search_products] returns for the query arguments [a]: the
    lines of the handler that compute its return value. *)
Definition search_products_body (a : list (ustring * ustring))
  : SearchBody :=
  let query := lower (args_get (of_string "q") (of_string "") a) in
  let filtered_products :=
    if truthy query
    then filter (query_in_product query) PRODUCTS
    else PRODUCTS in
  mkSearchBody query filtered_products (len filtered_products).

(** The claim as the specification words it: whenever [q] contains an
    uppercase letter, the echoed query differs from [q]. *)
Definition echo_differs_on_uppercase : Prop :=
  forall (a : list (ustring * ustring)) (c : uchar),
    In c (args_get (of_string "q") (of_string "") a) ->
    isupper_char c = true ->
    query (search_products_body a) <>
    args_get (of_string "q") (of_string "") a.

End Wide.

(* ===================================================================== *)
(** ** Strings *)
(* ===================================================================== *)

Module StrFacts.
Import Str.

Ltac each_char c :=
  destruct c as [b0 b1 b2 b3 b4 b5 b6 b7];
  destruct b0, b1, b2, b3, b4, b5, b6, b7.

Lemma startswith_spec (q s : string) :
  startswith q s = true <-> exists post, s = q ++ post.
Proof.
  revert s; induction q as [|a q IH]; intros s; simpl.
  - split; [intros _; now exists s | reflexivity].
  - destruct s as [|b s].
    + split; [discriminate | intros [post H]; discriminate H].
    + rewrite andb_true_iff, IH, Ascii.eqb_eq. split.
      * intros [-> [post ->]]. now exists post.
      * intros [post H]. injection H as -> ->. split; [reflexivity|now exists post].
Qed.

Lemma contains_spec (q s : string) :
  contains q s = true <-> Substring q s.
Proof.
  unfold Substring. induction s as [|b s IH].
  - simpl. rewrite orb_false_r, startswith_spec. split.
    + intros [post H]. now exists "", post.
    + intros [pre [post H]]. destruct pre; simpl in H.
      * now exists post.
      * discriminate H.
  - cbn [contains]. rewrite orb_true_iff, startswith_spec, IH. split.
    + intros [[post H] | [pre [post H]]].
      * now exists "", post.
      * exists (String b pre), post. simpl. now rewrite H.
    + intros [pre [post H]]. destruct pre as [|a pre]; simpl in H.
      * left. now exists post.
      * right. injection H as _ H. now exists pre, post.
Qed.

Lemma contains_empty (s : string) : contains "" s = true.
Proof. destruct s; reflexivity. Qed.

Lemma lower_app (a b : string) : lower (a ++ b) = lower a ++ lower b.
Proof. induction a as [|c a IH]; simpl; [reflexivity | now rewrite IH]. Qed.

Lemma lower_char_upper (c : ascii) :
  isupper_char c = true -> lower_char c <> c.
Proof.
  intros H. each_char c; try discriminate H; vm_compute; discriminate.
Qed.

Lemma lower_char_space (c : ascii) :
  isspace_char c = true -> lower_char c = c.
Proof.
  intros H. each_char c; try discriminate H; reflexivity.
Qed.

Lemma lower_all_space (s : string) : all_space s = true -> lower s = s.
Proof.
  induction s as [|c s IH]; simpl; [reflexivity|].
  rewrite andb_true_iff. intros [Hc Hs].
  now rewrite (lower_char_space c Hc), (IH Hs).
Qed.

End StrFacts.

(* ===================================================================== *)
(** ** Lookup and filtering over an arbitrary product list *)
(* ===================================================================== *)

Section Catalog.
Variable products : list Product.

Lemma next_by_id_Some (x : string) (p : Product) :
  next_by_id products x = Some p -> In p products /\ id p = x.
Proof.
  induction products as [|a l IH]; simpl; [discriminate|].
  destruct (String.eqb_spec (id a) x) as [E|E].
  - intros [= <-]. auto.
  - intros H. destruct (IH H). auto.
Qed.

Lemma next_by_id_None (x : string) :
  next_by_id products x = None <-> forall p, In p products -> id p <> x.
Proof.
  induction products as [|a l IH]; simpl.
  - split; [intros _ p [] | reflexivity].
  - destruct (String.eqb_spec (id a) x) as [E|E].
    + split; [discriminate | intros H; now destruct (H a (or_introl eq_refl))].
    + rewrite IH. split.
      * intros H p [<- | Hp]; auto.
      * intros H p Hp. apply H. now right.
Qed.

Lemma next_by_id_unique (p : Product) :
  NoDup (map id products) -> In p products ->
  next_by_id products (id p) = Some p.
Proof.
  induction products as [|a l IH]; simpl; [intros _ []|].
  intros Hnd Hin. inversion Hnd as [|? ? Hnotin Hnd']; subst.
  destruct (String.eqb_spec (id a) (id p)) as [E|E].
  - destruct Hin as [-> | Hin]; [reflexivity|].
    exfalso. apply Hnotin. rewrite E. now apply in_map.
  - destruct Hin as [-> | Hin]; [now destruct E|]. now apply IH.
Qed.

Lemma filter_Subseq (f : Product -> bool) : Subseq (filter f products) products.
Proof.
  induction products as [|a l IH]; simpl; [constructor|].
  destruct (f a); now constructor.
Qed.

End Catalog.

Lemma existsb_contains_spec (q : string) (cats : list string) :
  existsb (fun cat => Str.contains q (Str.lower cat)) cats = true <->
  exists cat, In cat cats /\ Str.Substring q (Str.lower cat).
Proof.
  rewrite existsb_exists. split; intros [cat [Hin H]]; exists cat;
    (split; [exact Hin | now apply StrFacts.contains_spec]).
Qed.

(** The comprehension's condition decides [Matches]. *)
Lemma query_in_product_spec (q : string) (p : Product) :
  query_in_product q p = true <-> Matches q p.
Proof.
  unfold query_in_product, Matches.
  now rewrite !orb_true_iff, !StrFacts.contains_spec, existsb_contains_spec,
    or_assoc.
Qed.

Lemma query_in_product_empty (p : Product) : query_in_product "" p = true.
Proof.
  unfold query_in_product. now rewrite StrFacts.contains_empty.
Qed.

Lemma filter_all {A} (f : A -> bool) (l : list A) :
  (forall x, f x = true) -> filter f l = l.
Proof.
  intros H. induction l as [|a l IH]; simpl; [reflexivity|].
  now rewrite H, IH.
Qed.

Lemma map_JStr_inj (l1 l2 : list string) : map JStr l1 = map JStr l2 -> l1 = l2.
Proof.
  revert l2; induction l1 as [|a l1 IH]; intros [|b l2]; simpl;
    try discriminate; [reflexivity|].
  intros [= -> H]. now rewrite (IH _ H).
Qed.

Lemma product_json_inj (p1 p2 : Product) :
  product_json p1 = product_json p2 -> p1 = p2.
Proof.
  destruct p1 as [i1 n1 d1 c1 [cc1 u1 k1] t1].
  destruct p2 as [i2 n2 d2 c2 [cc2 u2 k2] t2].
  unfold product_json, money_json; simpl.
  intros [= -> -> -> -> -> -> -> H]. now rewrite (map_JStr_inj _ _ H).
Qed.

(** The two branches of the [if query:] agree with the comprehension. *)
Lemma filtered_products_filter (query : string) :
  filtered_products query = filter (query_in_product query) PRODUCTS.
Proof.
  unfold filtered_products. destruct query as [|c q]; simpl Str.truthy;
    [|reflexivity].
  symmetry. apply filter_all, query_in_product_empty.
Qed.

Lemma filtered_products_spec (query : string) (p : Product) :
  In p (filtered_products query) <-> In p PRODUCTS /\ Matches query p.
Proof.
  now rewrite filtered_products_filter, filter_In, query_in_product_spec.
Qed.

(* ===================================================================== *)
(** ** What each handler returns and records *)
(* ===================================================================== *)

Ltac run_handler :=
  cbv beta iota delta
    [view health_check list_products get_product search_products bind ret
     start_as_current_span set_attribute request_counter_add
     request_duration_record logger_info logger_warning time_time time_sleep
     random_uniform set_now set_random_drawn set_spans set_request_counter
     set_request_duration set_logger
     active_spans ended_spans request_counter request_duration logger now
     random_source random_drawn fst snd].

Lemma search_products_response (request : Request) (w : World) :
  fst (search_products request w) =
  let query := Str.lower (args_get "q" "" (args request)) in
  jsonify (search_body query (filtered_products query)).
Proof. reflexivity. Qed.

Lemma get_product_response (request : Request) (x : string) (w : World) :
  fst (get_product request x w) =
  match next_by_id PRODUCTS x with
  | Some product => jsonify (product_json product)
  | None => mkResponse 404 (JObj [("error", JStr "Product not found")])
  end.
Proof.
  unfold get_product. run_handler.
  destruct (next_by_id PRODUCTS x); reflexivity.
Qed.

Lemma list_products_response (request : Request) (w : World) :
  fst (list_products request w) =
  jsonify (JObj [("products", JArr (map product_json PRODUCTS))]).
Proof. reflexivity. Qed.

(* ===================================================================== *)
(** ** The fixed catalog *)
(* ===================================================================== *)

Lemma PRODUCTS_ids_NoDup : NoDup (map id PRODUCTS).
Proof.
  unfold PRODUCTS; simpl.
  repeat (constructor;
          [simpl; intros H;
           repeat (destruct H as [H|H]; [discriminate H|]); exact H|]).
  constructor.
Qed.

Lemma PRODUCTS_prices (p : Product) :
  In p PRODUCTS ->
  (0 <= units (price_usd p))%Z /\ (0 <= nanos (price_usd p) <= 999999999)%Z.
Proof.
  unfold PRODUCTS. simpl.
  intros H. repeat (destruct H as [<-|H]; [simpl; lia|]). destruct H.
Qed.

(** C8. Every product of the fixed catalog has a price with [units >= 0]
    and [0 <= nanos <= 999999999], and no two products of the catalog
    share an id: two positions of the catalog holding the same id are the
    same position. *)
Theorem PRODUCTS_invariants :
  Forall (fun p => (0 <= units (price_usd p))%Z /\
                   (0 <= nanos (price_usd p) <= 999999999)%Z) PRODUCTS /\
  (forall i j p q,
     nth_error PRODUCTS i = Some p -> nth_error PRODUCTS j = Some q ->
     id p = id q -> i = j) /\
  NoDup (map id PRODUCTS).
Proof.
  split; [|split].
  - apply Forall_forall. exact PRODUCTS_prices.
  - intros i j p q Hi Hj E.
    apply (proj1 (NoDup_nth_error (map id PRODUCTS)) PRODUCTS_ids_NoDup).
    + rewrite length_map. apply nth_error_Some. now rewrite Hi.
    + now rewrite !nth_error_map, Hi, Hj; simpl; rewrite E.
  - exact PRODUCTS_ids_NoDup.
Qed.

(* ===================================================================== *)
(** ** Get by id *)
(* ===================================================================== *)

Local Open Scope list_scope.

Lemma get_product_hit_world (request : Request) (x : string) (w : World)
    (p : Product) :
  next_by_id PRODUCTS x = Some p ->
  request_counter (snd (get_product request x w)) =
    request_counter w ++
      [(1%Z, found_labels)] /\
  request_duration (snd (get_product request x w)) =
    request_duration w ++
      [((now w + (0.005 + (0.02 - 0.005) * random_source w (random_drawn w))
         - now w)%Q, found_labels)] /\
  ended_spans (snd (get_product request x w)) =
    ended_spans w ++
      [mkSpan "get_product"
         [("product.id", AStr x); ("http.method", AStr (method request));
          ("http.url", AStr (url request)); ("product.found", ABool true);
          ("product.name", AStr (name p))]].
Proof.
  intros H. unfold get_product. run_handler. rewrite H. repeat split.
Qed.

Lemma get_product_miss_world (request : Request) (x : string) (w : World) :
  next_by_id PRODUCTS x = None ->
  request_counter (snd (get_product request x w)) =
    request_counter w ++
      [(1%Z, not_found_labels)] /\
  request_duration (snd (get_product request x w)) =
    request_duration w ++
      [((now w + (0.005 + (0.02 - 0.005) * random_source w (random_drawn w))
         - now w)%Q, not_found_labels)] /\
  ended_spans (snd (get_product request x w)) =
    ended_spans w ++
      [mkSpan "get_product"
         [("product.id", AStr x); ("http.method", AStr (method request));
          ("http.url", AStr (url request)); ("product.found", ABool false);
          ("error", ABool true)]].
Proof.
  intros H. unfold get_product. run_handler. rewrite H. repeat split.
Qed.

(** Lowercasing any catalog id gives a string that is no catalog id. *)
Lemma lowered_id_absent (p : Product) :
  In p PRODUCTS -> next_by_id PRODUCTS (Str.lower (id p)) = None.
Proof.
  unfold PRODUCTS. simpl.
  intros H. repeat (destruct H as [<-|H]; [reflexivity|]). destruct H.
Qed.

(** C1. For every product [p] of the fixed catalog, the get-by-id handler
    applied to [p]'s id answers with status 200 and with [p] itself as the
    body, not wrapped (and the body determines [p]); it records the
    outcome [found] on the counter and [product.found = true] on the span.
    The comparison of ids is exact: a 200 answer for [x] means some
    catalog product has [x] as its id, and the id of [p] in lowercase is
    answered with 404. *)
Theorem get_product_returns_the_product
    (request : Request) (w : World) (p : Product) (Hp : In p PRODUCTS) :
  fst (get_product request (id p) w) = mkResponse 200 (product_json p) /\
  (forall p', product_json p' = body (fst (get_product request (id p) w)) ->
              p' = p) /\
  request_counter (snd (get_product request (id p) w)) =
    request_counter w ++
      [(1%Z, found_labels)] /\
  (exists attrs,
     ended_spans (snd (get_product request (id p) w)) =
       ended_spans w ++
      [mkSpan "get_product" attrs] /\
     In ("product.found", ABool true) attrs) /\
  (forall x, status (fst (get_product request x w)) = 200%Z ->
             exists p', In p' PRODUCTS /\ id p' = x) /\
  status (fst (get_product request (Str.lower (id p)) w)) = 404%Z.
Proof.
  pose proof (next_by_id_unique PRODUCTS p PRODUCTS_ids_NoDup Hp) as Hfind.
  destruct (get_product_hit_world request (id p) w p Hfind) as (Hc & _ & Hs).
  assert (Hr : fst (get_product request (id p) w)
               = mkResponse 200 (product_json p)).
  { now rewrite get_product_response, Hfind. }
  split; [exact Hr|]. split; [|split; [exact Hc|split; [|split]]].
  - rewrite Hr. simpl. intros p'. apply product_json_inj.
  - eexists. split; [exact Hs|]. simpl. tauto.
  - intros x. rewrite get_product_response.
    destruct (next_by_id PRODUCTS x) as [p'|] eqn:E; [|discriminate].
    intros _. exists p'. exact (next_by_id_Some PRODUCTS x p' E).
  - now rewrite get_product_response, (lowered_id_absent p Hp).
Qed.

Lemma get_product_returns_the_product_witness :
  In (mkProduct "OLJCESPC7Z" "Vintage Typewriter"
        "This typewriter looks good in your living room."
        "/static/img/products/typewriter.jpg"
        (mkMoney "USD" 67 990000000) ["vintage"]) PRODUCTS /\
  fst (get_product (plain_request "/products/OLJCESPC7Z") "OLJCESPC7Z"
         fresh_world)
  = mkResponse 200
      (JObj [("id", JStr "OLJCESPC7Z");
             ("name", JStr "Vintage Typewriter");
             ("description",
              JStr "This typewriter looks good in your living room.");
             ("picture", JStr "/static/img/products/typewriter.jpg");
             ("price_usd",
              JObj [("currency_code", JStr "USD"); ("units", JInt 67);
                    ("nanos", JInt 990000000)]);
             ("categories", JArr [JStr "vintage"])]).
Proof.
  split.
  - simpl. tauto.
  - apply (get_product_returns_the_product
             (plain_request "/products/OLJCESPC7Z") fresh_world
             (mkProduct "OLJCESPC7Z" "Vintage Typewriter"
                "This typewriter looks good in your living room."
                "/static/img/products/typewriter.jpg"
                (mkMoney "USD" 67 990000000) ["vintage"])).
    simpl. tauto.
Defined.

(** C3. For every string [x] that is the id of no catalog product, the
    get-by-id handler answers with status 404 and the body
    [{"error": "Product not found"}]. Over all routes, requests and
    worlds the status is 200 or 404, hence never 5xx, and it differs from
    200 only on the get-by-id route with an id that no product has. *)
Theorem get_product_unknown_id_404
    (request : Request) (w : World) (x : string)
    (Hx : forall p, In p PRODUCTS -> id p <> x) :
  fst (get_product request x w) =
    mkResponse 404 (JObj [("error", JStr "Product not found")]) /\
  (forall r request' w',
     let code := status (fst (view r request' w')) in
     (code = 200 \/ code = 404)%Z /\
     (code < 500)%Z /\
     (code <> 200%Z ->
      exists x', r = RProduct x' /\
                 forall p, In p PRODUCTS -> id p <> x')).
Proof.
  split.
  - rewrite get_product_response.
    now rewrite (proj2 (next_by_id_None PRODUCTS x) Hx).
  - intros r request' w'. cbv zeta.
    assert (Hok : forall resp : Response, status resp = 200%Z ->
              (status resp = 200 \/ status resp = 404)%Z /\
              (status resp < 500)%Z /\
              (status resp <> 200%Z ->
               exists x', r = RProduct x' /\
                          forall p, In p PRODUCTS -> id p <> x')).
    { intros resp ->. split; [now left | split; [lia | intros H; now destruct H]]. }
    destruct r as [| |x'|]; cbn [view].
    + now apply Hok.
    + rewrite list_products_response. now apply Hok.
    + rewrite get_product_response.
      destruct (next_by_id PRODUCTS x') eqn:E; [now apply Hok|].
      cbn [status]. split; [now right | split; [lia|]].
      intros _. exists x'. split; [reflexivity|].
      now apply next_by_id_None.
    + rewrite search_products_response. now apply Hok.
Qed.

Lemma get_product_unknown_id_404_witness :
  fst (get_product (plain_request "/products/DOES_NOT_EXIST")
         "DOES_NOT_EXIST" fresh_world) =
    mkResponse 404 (JObj [("error", JStr "Product not found")]).
Proof.
  refine (proj1 (get_product_unknown_id_404
                   (plain_request "/products/DOES_NOT_EXIST") fresh_world
                   "DOES_NOT_EXIST" _)).
  intros p Hp. simpl in Hp.
  repeat (destruct Hp as [<-|Hp]; [discriminate|]). destruct Hp.
Defined.

(* ===================================================================== *)
(** ** Search *)
(* ===================================================================== *)

(** C2. For every query [q], the search handler answers with status 200,
    the lowercased query, a list of products and its length as [total];
    the list is a subsequence of the catalog in catalog order, every
    product in it matches the lowercased [q] in its lowercased name,
    description or one of its lowercased category tags (soundness), and
    every catalog product that matches is in it (completeness). *)
Theorem search_products_sound_complete (request : Request) (w : World) :
  let q := Str.lower (args_get "q" "" (args request)) in
  exists result : list Product,
    fst (search_products request w) =
      mkResponse 200
        (JObj [("query", JStr q);
               ("products", JArr (map product_json result));
               ("total", JInt (Z.of_nat (length result)))]) /\
    Subseq result PRODUCTS /\
    result = filter (query_in_product q) PRODUCTS /\
    (forall p, In p result -> In p PRODUCTS /\ Matches q p) /\
    (forall p, In p PRODUCTS -> Matches q p -> In p result).
Proof.
  intros q. exists (filtered_products q). split; [|split; [|split; [|split]]].
  - apply search_products_response.
  - rewrite filtered_products_filter. apply filter_Subseq.
  - apply filtered_products_filter.
  - intros p. apply filtered_products_spec.
  - intros p Hp Hm. now apply filtered_products_spec.
Qed.

(** C4. With the empty query string (given as such, or by leaving [q]
    out) the search handler returns the whole catalog in its order, and
    [total] is the size of the catalog. *)
Theorem search_products_empty_query (request : Request) (w : World)
    (Hq : args_get "q" "" (args request) = "") :
  fst (search_products request w) =
    mkResponse 200
      (JObj [("query", JStr "");
             ("products", JArr (map product_json PRODUCTS));
             ("total", JInt (Z.of_nat (length PRODUCTS)))]) /\
  Z.of_nat (length PRODUCTS) = 5%Z.
Proof.
  split; [|reflexivity].
  rewrite search_products_response, Hq. reflexivity.
Qed.

Lemma search_products_empty_query_witness :
  map id PRODUCTS =
    ["OLJCESPC7Z"; "66VCHSJNUP"; "1YMWWN1N4O"; "L9ECAV7KIM"; "2ZYFJ3GM2N"] /\
  fst (search_products (search_request "") fresh_world) =
    mkResponse 200
      (JObj [("query", JStr "");
             ("products", JArr (map product_json PRODUCTS));
             ("total", JInt 5)]) /\
  fst (search_products (plain_request "/products/search") fresh_world) =
    mkResponse 200
      (JObj [("query", JStr "");
             ("products", JArr (map product_json PRODUCTS));
             ("total", JInt 5)]).
Proof.
  split; [reflexivity|]. split.
  - exact (proj1 (search_products_empty_query (search_request "")
                    fresh_world eq_refl)).
  - exact (proj1 (search_products_empty_query
                    (plain_request "/products/search") fresh_world eq_refl)).
Defined.

(** C5. Two queries with the same lowercase form get the same response
    from the search handler: the same products in the same order, the
    same total and the same echoed query. *)
Theorem search_products_case_insensitive
    (request1 request2 : Request) (w1 w2 : World)
    (Hq : Str.lower (args_get "q" "" (args request1)) =
          Str.lower (args_get "q" "" (args request2))) :
  fst (search_products request1 w1) = fst (search_products request2 w2).
Proof.
  rewrite !search_products_response. cbv zeta. now rewrite Hq.
Qed.

Lemma search_products_case_insensitive_witness :
  fst (search_products (search_request "VINTAGE") fresh_world) =
  fst (search_products (search_request "vintage") fresh_world).
Proof.
  apply (search_products_case_insensitive
           (search_request "VINTAGE") (search_request "vintage")
           fresh_world fresh_world).
  reflexivity.
Defined.

(** C7. The search handler does not trim the query. When the received
    [q] is [pre ++ q0 ++ post] with [pre] and [post] made of whitespace,
    the query matched and echoed is [pre ++ lower q0 ++ post], the
    whitespace kept, and a product is returned exactly when that string
    is a substring of its lowercased name, description or a category
    tag. So [" vintage"] selects nothing while ["vintage"] selects three
    products, and a query of one space selects the products that contain
    a space. *)
Theorem search_products_keeps_whitespace
    (request : Request) (w : World) (pre q0 post : string)
    (Hq : args_get "q" "" (args request) = (pre ++ q0 ++ post)%string)
    (Hpre : Str.all_space pre = true) (Hpost : Str.all_space post = true) :
  let query := (pre ++ Str.lower q0 ++ post)%string in
  (exists result : list Product,
     fst (search_products request w) =
       mkResponse 200
         (JObj [("query", JStr query);
                ("products", JArr (map product_json result));
                ("total", JInt (Z.of_nat (length result)))]) /\
     Subseq result PRODUCTS /\
     forall p, In p result <-> In p PRODUCTS /\ Matches query p) /\
  filtered_products (Str.lower " vintage") = [] /\
  map id (filtered_products (Str.lower "vintage")) =
    ["OLJCESPC7Z"; "66VCHSJNUP"; "2ZYFJ3GM2N"] /\
  filtered_products (Str.lower " ") = PRODUCTS.
Proof.
  intros query.
  assert (E : Str.lower (args_get "q" "" (args request)) = query).
  { rewrite Hq, !StrFacts.lower_app.
    now rewrite (StrFacts.lower_all_space pre Hpre),
      (StrFacts.lower_all_space post Hpost). }
  split; [|split; [reflexivity | split; reflexivity]].
  exists (filtered_products query). split; [|split].
  - rewrite search_products_response. cbv zeta. now rewrite E.
  - rewrite filtered_products_filter. apply filter_Subseq.
  - intros p. apply filtered_products_spec.
Qed.

Lemma search_products_keeps_whitespace_witness :
  filtered_products " vintage" = [] /\
  exists result : list Product,
    fst (search_products (search_request " Vintage") fresh_world) =
      mkResponse 200
        (JObj [("query", JStr " vintage");
               ("products", JArr (map product_json result));
               ("total", JInt (Z.of_nat (length result)))]).
Proof.
  destruct (search_products_keeps_whitespace
              (search_request " Vintage") fresh_world " " "Vintage" ""
              eq_refl eq_refl eq_refl) as [[result [Hr _]] [Hnil _]].
  split; [exact Hnil|]. exists result. exact Hr.
Defined.

(** C9. On the five products of the catalog, the search for
    ["photography"] answers with exactly two products, the second and the
    fifth of the catalog, whose ids are 66VCHSJNUP and 2ZYFJ3GM2N, in
    that order, and with [total] 2. *)
Theorem search_products_photography (request : Request) (w : World)
    (Hq : args_get "q" "" (args request) = "photography") :
  length PRODUCTS = 5%nat /\
  exists lens camera : Product,
    nth_error PRODUCTS 1 = Some lens /\
    nth_error PRODUCTS 4 = Some camera /\
    id lens = "66VCHSJNUP" /\ name lens = "Vintage Camera Lens" /\
    id camera = "2ZYFJ3GM2N" /\ name camera = "Film Camera" /\
    fst (search_products request w) =
      mkResponse 200
        (JObj [("query", JStr "photography");
               ("products", JArr [product_json lens; product_json camera]);
               ("total", JInt 2)]).
Proof.
  split; [reflexivity|].
  do 2 eexists. do 6 (split; [reflexivity|]).
  rewrite search_products_response, Hq. reflexivity.
Qed.

Lemma search_products_photography_witness :
  exists lens camera : Product,
    id lens = "66VCHSJNUP" /\ id camera = "2ZYFJ3GM2N" /\
    body (fst (search_products (search_request "photography") fresh_world)) =
      JObj [("query", JStr "photography");
            ("products", JArr [product_json lens; product_json camera]);
            ("total", JInt 2)].
Proof.
  destruct (search_products_photography
              (search_request "photography") fresh_world eq_refl)
    as [_ [lens [camera (_ & _ & Hl & _ & Hc & _ & Hr)]]].
  exists lens, camera. split; [exact Hl|]. split; [exact Hc|].
  now rewrite Hr.
Defined.

(* ===================================================================== *)
(** ** Request metrics *)
(* ===================================================================== *)

Lemma list_products_world (request : Request) (w : World) :
  request_counter (snd (list_products request w)) =
    request_counter w ++ [(1%Z, route_labels RProducts 200)] /\
  request_duration (snd (list_products request w)) =
    request_duration w ++
      [((now w + (0.01 + (0.05 - 0.01) * random_source w (random_drawn w))
         - now w)%Q, route_labels RProducts 200)].
Proof. split; reflexivity. Qed.

Lemma search_products_world (request : Request) (w : World) :
  request_counter (snd (search_products request w)) =
    request_counter w ++ [(1%Z, route_labels RSearch 200)] /\
  request_duration (snd (search_products request w)) =
    request_duration w ++
      [((now w + (0.02 + (0.08 - 0.02) * random_source w (random_drawn w))
         - now w)%Q, route_labels RSearch 200)].
Proof. split; reflexivity. Qed.

Lemma health_check_world (w : World) : snd (health_check w) = w.
Proof. reflexivity. Qed.

(** A HEAD request to [/products], which the list handler serves: the
    span records the method HEAD, and the labels of the counter
    increment and of the duration record say GET. *)
Lemma head_request_is_labelled_get :
  method (mkRequest "HEAD" "/products" []) = "HEAD"%string /\
  ended_spans
    (snd (view RProducts (mkRequest "HEAD" "/products" []) fresh_world)) =
    [mkSpan "list_products"
       [("product.count", AInt 5); ("http.method", AStr "HEAD");
        ("http.url", AStr "/products")]] /\
  request_counter
    (snd (view RProducts (mkRequest "HEAD" "/products" []) fresh_world)) =
    [(1%Z, [("endpoint", "/products"); ("method", "GET")])] /\
  map snd
    (request_duration
       (snd (view RProducts (mkRequest "HEAD" "/products" []) fresh_world))) =
    [[("endpoint", "/products"); ("method", "GET")]] /\
  ~ labels_match_the_method_taken.
Proof.
  split; [reflexivity|]. split; [reflexivity|]. split; [reflexivity|].
  split; [reflexivity|].
  intros H.
  destruct (H RProducts (mkRequest "HEAD" "/products" []) fresh_world eq_refl)
    as (labels & seconds & Hc & _ & Hm).
  cbn in Hc. injection Hc as <-. discriminate Hm.
Qed.

(** C6, amended. Every request handled by the list, get-by-id or search
    handler, successful or failed, makes exactly one increment, by 1, of
    the request counter and exactly one duration record, both with the
    same labels: the endpoint of the handler, the method label, which is
    the constant GET whatever the method of the request, and for
    get-by-id only the status, [found] when the product is returned with
    status 200 and [not_found] when the answer is 404 (which happens
    exactly when no catalog product has the id); the labels of list and
    search requests have no status. *)
Theorem product_requests_are_measured_once
    (r : Route) (request : Request) (w : World)
    (Hr : is_product_route r = true) :
  let response := fst (view r request w) in
  let w' := snd (view r request w) in
  exists (labels : Labels) (seconds : Q),
    request_counter w' = request_counter w ++ [(1%Z, labels)] /\
    request_duration w' = request_duration w ++ [(seconds, labels)] /\
    dict_get "endpoint" labels = Some (route_endpoint r) /\
    dict_get "method" labels = Some "GET"%string /\
    dict_get "status" labels =
      match r with
      | RProduct x =>
          Some (if (status response =? 200)%Z then "found"
                else "not_found")%string
      | _ => None
      end /\
    length labels = match r with RProduct _ => 3%nat | _ => 2%nat end /\
    match r with
    | RProduct x =>
        (status response = 200%Z <-> exists p, In p PRODUCTS /\ id p = x) /\
        (status response = 404%Z <-> forall p, In p PRODUCTS -> id p <> x)
    | _ => status response = 200%Z
    end.
Proof.
  cbv zeta. destruct r as [| |x|]; [discriminate Hr| | |]; cbn [view].
  - destruct (list_products_world request w) as [Hc Hd].
    do 2 eexists. split; [exact Hc|]. split; [exact Hd|]. repeat split.
  - rewrite get_product_response.
    destruct (next_by_id PRODUCTS x) as [p|] eqn:E.
    + destruct (get_product_hit_world request x w p E) as (Hc & Hd & _).
      do 2 eexists. split; [exact Hc|]. split; [exact Hd|].
      do 4 (split; [reflexivity|]). cbn [status jsonify].
      split; split; try discriminate; try reflexivity.
      * intros _. exists p. exact (next_by_id_Some PRODUCTS x p E).
      * intros H. destruct (next_by_id_Some PRODUCTS x p E) as [Hp Hid].
        destruct (H p Hp Hid).
    + destruct (get_product_miss_world request x w E) as (Hc & Hd & _).
      do 2 eexists. split; [exact Hc|]. split; [exact Hd|].
      do 4 (split; [reflexivity|]). cbn [status].
      split; split; try discriminate; try reflexivity.
      * intros [p [Hp Hid]].
        destruct (proj1 (next_by_id_None PRODUCTS x) E p Hp Hid).
      * intros _. exact (proj1 (next_by_id_None PRODUCTS x) E).
  - destruct (search_products_world request w) as [Hc Hd].
    do 2 eexists. split; [exact Hc|]. split; [exact Hd|]. repeat split.
Qed.

Lemma product_requests_are_measured_once_witness :
  exists seconds : Q,
    request_counter
      (snd (view (RProduct "DOES_NOT_EXIST")
              (mkRequest "HEAD" "/products/DOES_NOT_EXIST" []) fresh_world)) =
      [(1%Z, [("endpoint", "/products/{id}"); ("method", "GET");
              ("status", "not_found")])] /\
    request_duration
      (snd (view (RProduct "DOES_NOT_EXIST")
              (mkRequest "HEAD" "/products/DOES_NOT_EXIST" []) fresh_world)) =
      [(seconds, [("endpoint", "/products/{id}"); ("method", "GET");
                  ("status", "not_found")])].
Proof.
  destruct (product_requests_are_measured_once
              (RProduct "DOES_NOT_EXIST")
              (mkRequest "HEAD" "/products/DOES_NOT_EXIST" []) fresh_world
              eq_refl)
    as (labels & seconds & Hc & Hd & _).
  exists seconds. cbn in Hc. injection Hc as <-. split; [reflexivity|].
  exact Hd.
Defined.

(* ===================================================================== *)
(** ** The whole effect of each handler *)
(* ===================================================================== *)

Lemma list_products_run (request : Request) (w : World) :
  list_products request w =
  (jsonify (JObj [("products", JArr (map product_json PRODUCTS))]),
   mkWorld (now w + uniform_draw 0.01 0.05 w)%Q (random_source w)
     (S (random_drawn w)) (active_spans w)
     (ended_spans w ++
        [mkSpan "list_products"
           [("product.count", AInt 5); ("http.method", AStr (method request));
            ("http.url", AStr (url request))]])
     (request_counter w ++ [(1%Z, route_labels RProducts 200)])
     (request_duration w ++
        [((now w + uniform_draw 0.01 0.05 w - now w)%Q,
          route_labels RProducts 200)])
     (logger w ++ [(INFO, "Listed 5 products"%string)])).
Proof. reflexivity. Qed.

Lemma search_products_run (request : Request) (w : World) :
  let query := Str.lower (args_get "q" "" (args request)) in
  let result := filtered_products query in
  search_products request w =
  (jsonify (search_body query result),
   mkWorld (now w + uniform_draw 0.02 0.08 w)%Q (random_source w)
     (S (random_drawn w)) (active_spans w)
     (ended_spans w ++
        [mkSpan "search_products"
           [("search.query", AStr query);
            ("http.method", AStr (method request));
            ("http.url", AStr (url request));
            ("search.results_count", AInt (len result))]])
     (request_counter w ++ [(1%Z, route_labels RSearch 200)])
     (request_duration w ++
        [((now w + uniform_draw 0.02 0.08 w - now w)%Q,
          route_labels RSearch 200)])
     (logger w ++
        [(INFO, ("Search for '" ++ query ++ "' returned "
                 ++ str_of_int (len result) ++ " results")%string)])).
Proof. reflexivity. Qed.

Lemma get_product_run_hit (request : Request) (x : string) (w : World)
    (p : Product) :
  next_by_id PRODUCTS x = Some p ->
  get_product request x w =
  (jsonify (product_json p),
   mkWorld (now w + uniform_draw 0.005 0.02 w)%Q (random_source w)
     (S (random_drawn w)) (active_spans w)
     (ended_spans w ++
        [mkSpan "get_product"
           [("product.id", AStr x); ("http.method", AStr (method request));
            ("http.url", AStr (url request)); ("product.found", ABool true);
            ("product.name", AStr (name p))]])
     (request_counter w ++ [(1%Z, found_labels)])
     (request_duration w ++
        [((now w + uniform_draw 0.005 0.02 w - now w)%Q, found_labels)])
     (logger w ++ [(INFO, ("Found product: " ++ name p)%string)])).
Proof.
  intros H. unfold get_product. run_handler. now rewrite H.
Qed.

Lemma get_product_run_miss (request : Request) (x : string) (w : World) :
  next_by_id PRODUCTS x = None ->
  get_product request x w =
  (mkResponse 404 (JObj [("error", JStr "Product not found")]),
   mkWorld (now w + uniform_draw 0.005 0.02 w)%Q (random_source w)
     (S (random_drawn w)) (active_spans w)
     (ended_spans w ++
        [mkSpan "get_product"
           [("product.id", AStr x); ("http.method", AStr (method request));
            ("http.url", AStr (url request)); ("product.found", ABool false);
            ("error", ABool true)]])
     (request_counter w ++ [(1%Z, not_found_labels)])
     (request_duration w ++
        [((now w + uniform_draw 0.005 0.02 w - now w)%Q, not_found_labels)])
     (logger w ++ [(WARNING, ("Product not found: " ++ x)%string)])).
Proof.
  intros H. unfold get_product. run_handler. now rewrite H.
Qed.

(** The world after a product handler, in one shape for the three of
    them: one draw, one sleep, one span, one point on each instrument,
    one log record. *)
Lemma product_route_run (r : Route) (request : Request) (w : World)
    (lo hi : Q) (n : string) :
  sleep_range r = Some (lo, hi) -> route_span_name r = Some n ->
  exists attrs level msg,
    snd (view r request w) =
      mkWorld (now w + uniform_draw lo hi w)%Q (random_source w)
        (S (random_drawn w)) (active_spans w)
        (ended_spans w ++ [mkSpan n attrs])
        (request_counter w ++
           [(1%Z, route_labels r (status (fst (view r request w))))])
        (request_duration w ++
           [((now w + uniform_draw lo hi w - now w)%Q,
             route_labels r (status (fst (view r request w))))])
        (logger w ++ [(level, msg)]) /\
    dict_get "http.method" attrs = Some (AStr (method request)) /\
    dict_get "http.url" attrs = Some (AStr (url request)) /\
    NoDup (map fst attrs) /\
    level = (if (status (fst (view r request w)) =? 404)%Z
             then WARNING else INFO).
Proof.
  destruct r as [| |x|]; cbn [sleep_range route_span_name view];
    try discriminate; intros [= <- <-] [= <-].
  - rewrite list_products_run. do 3 eexists.
    split; [reflexivity|]. split; [reflexivity|]. split; [reflexivity|].
    split; [|reflexivity].
    repeat (constructor; [simpl; intuition discriminate|]). constructor.
  - destruct (next_by_id PRODUCTS x) as [p|] eqn:E.
    + rewrite (get_product_run_hit request x w p E). do 3 eexists.
      split; [reflexivity|]. split; [reflexivity|]. split; [reflexivity|].
      split; [|reflexivity].
      repeat (constructor; [simpl; intuition discriminate|]). constructor.
    + rewrite (get_product_run_miss request x w E). do 3 eexists.
      split; [reflexivity|]. split; [reflexivity|]. split; [reflexivity|].
      split; [|reflexivity].
      repeat (constructor; [simpl; intuition discriminate|]). constructor.
  - rewrite search_products_run. do 3 eexists.
    split; [reflexivity|]. split; [reflexivity|]. split; [reflexivity|].
    split; [|reflexivity].
    repeat (constructor; [simpl; intuition discriminate|]). constructor.
Qed.

(* ===================================================================== *)
(** ** Spans, log and clock *)
(* ===================================================================== *)

(** The list handler answers every request, whatever the world, with
    status 200 and the five products of the catalog in catalog order
    under the key [products]; the [product.count] attribute of its span
    is the number of products in the body, and its log line says so. *)
Theorem list_products_returns_the_catalog (request : Request) (w : World) :
  fst (list_products request w) =
    mkResponse 200 (JObj [("products", JArr (map product_json PRODUCTS))]) /\
  map id PRODUCTS =
    ["OLJCESPC7Z"; "66VCHSJNUP"; "1YMWWN1N4O"; "L9ECAV7KIM"; "2ZYFJ3GM2N"]
    /\
  (exists attrs,
     ended_spans (snd (list_products request w)) =
       ended_spans w ++ [mkSpan "list_products" attrs] /\
     dict_get "product.count" attrs =
       Some (AInt (Z.of_nat (length PRODUCTS)))) /\
  logger (snd (list_products request w)) =
    logger w ++ [(INFO, "Listed 5 products"%string)].
Proof.
  rewrite list_products_run. cbn [fst snd ended_spans logger].
  split; [reflexivity|]. split; [reflexivity|]. split; [|reflexivity].
  eexists. split; reflexivity.
Qed.

(** Every handler leaves the stack of active spans as it found it. The
    three product handlers end exactly one span, named after the handler,
    on every path (the 404 path included); its attributes carry the
    method and the url of the request and no key twice. The health check
    changes nothing in the world. *)
Theorem handlers_end_their_span (r : Route) (request : Request) (w : World) :
  active_spans (snd (view r request w)) = active_spans w /\
  match route_span_name r with
  | None => snd (view r request w) = w
  | Some n =>
      exists attrs,
        ended_spans (snd (view r request w)) =
          ended_spans w ++ [mkSpan n attrs] /\
        dict_get "http.method" attrs = Some (AStr (method request)) /\
        dict_get "http.url" attrs = Some (AStr (url request)) /\
        NoDup (map fst attrs)
  end.
Proof.
  destruct (route_span_name r) as [n|] eqn:En.
  - assert (exists lo hi, sleep_range r = Some (lo, hi)) as (lo & hi & Er).
    { destruct r; try discriminate En; do 2 eexists; reflexivity. }
    destruct (product_route_run r request w lo hi n Er En)
      as (attrs & level & msg & Hw & Hm & Hu & Hnd & _).
    rewrite Hw. split; [reflexivity|].
    exists attrs. cbn [ended_spans]. auto.
  - destruct r; try discriminate En. split; reflexivity.
Qed.

(** When no catalog product has the id [x], the span of the get-by-id
    handler has the attributes [product.id = x], [product.found = false]
    and [error = true] and no [product.name], and the handler logs one
    warning that names [x]. *)
Theorem get_product_miss_telemetry
    (request : Request) (w : World) (x : string)
    (Hx : forall p, In p PRODUCTS -> id p <> x) :
  (exists attrs,
     ended_spans (snd (get_product request x w)) =
       ended_spans w ++ [mkSpan "get_product" attrs] /\
     dict_get "product.id" attrs = Some (AStr x) /\
     dict_get "product.found" attrs = Some (ABool false) /\
     dict_get "error" attrs = Some (ABool true) /\
     dict_get "product.name" attrs = None) /\
  logger (snd (get_product request x w)) =
    logger w ++ [(WARNING, ("Product not found: " ++ x)%string)].
Proof.
  rewrite (get_product_run_miss request x w
             (proj2 (next_by_id_None PRODUCTS x) Hx)).
  cbn [snd ended_spans logger]. split; [|reflexivity].
  eexists. split; [reflexivity|]. repeat split.
Qed.

Lemma get_product_miss_telemetry_witness :
  logger (snd (get_product (plain_request "/products/NOPE") "NOPE"
                 fresh_world)) =
    [(WARNING, "Product not found: NOPE"%string)].
Proof.
  refine (proj2 (get_product_miss_telemetry
                   (plain_request "/products/NOPE") fresh_world "NOPE" _)).
  intros p Hp. simpl in Hp.
  repeat (destruct Hp as [<-|Hp]; [discriminate|]). destruct Hp.
Defined.

(** When the id is that of a catalog product, the span carries the name
    of the product that is returned, and the handler logs it at level
    INFO. *)
Theorem get_product_hit_telemetry
    (request : Request) (w : World) (p : Product) (Hp : In p PRODUCTS) :
  (exists attrs,
     ended_spans (snd (get_product request (id p) w)) =
       ended_spans w ++ [mkSpan "get_product" attrs] /\
     dict_get "product.id" attrs = Some (AStr (id p)) /\
     dict_get "product.name" attrs = Some (AStr (name p)) /\
     dict_get "error" attrs = None) /\
  logger (snd (get_product request (id p) w)) =
    logger w ++ [(INFO, ("Found product: " ++ name p)%string)].
Proof.
  rewrite (get_product_run_hit request (id p) w p
             (next_by_id_unique PRODUCTS p PRODUCTS_ids_NoDup Hp)).
  cbn [snd ended_spans logger]. split; [|reflexivity].
  eexists. split; [reflexivity|]. repeat split.
Qed.

Lemma get_product_hit_telemetry_witness :
  logger (snd (get_product (plain_request "/products/L9ECAV7KIM")
                 "L9ECAV7KIM" fresh_world)) =
    [(INFO, "Found product: Terrarium"%string)].
Proof.
  refine (proj2 (get_product_hit_telemetry
                   (plain_request "/products/L9ECAV7KIM") fresh_world
                   (mkProduct "L9ECAV7KIM" "Terrarium"
                      "This terrarium will looks great in your white painted living room."
                      "/static/img/products/terrarium.jpg"
                      (mkMoney "USD" 36 450000000) ["gardening"]) _)).
  simpl. tauto.
Defined.

(** The span of the search handler carries the lowercased query that the
    body echoes, and a [search.results_count] equal to the [total] of
    the body and to the number of products in it. *)
Theorem search_products_span_agrees_with_body
    (request : Request) (w : World) :
  exists (query : string) (result : list Product) (attrs : list (string * AttrValue)),
    query = Str.lower (args_get "q" "" (args request)) /\
    body (fst (search_products request w)) =
      JObj [("query", JStr query);
            ("products", JArr (map product_json result));
            ("total", JInt (Z.of_nat (length result)))] /\
    ended_spans (snd (search_products request w)) =
      ended_spans w ++ [mkSpan "search_products" attrs] /\
    dict_get "search.query" attrs = Some (AStr query) /\
    dict_get "search.results_count" attrs =
      Some (AInt (Z.of_nat (length result))).
Proof.
  pose proof (search_products_run request w) as H. cbv zeta in H.
  rewrite H. do 3 eexists. split; [reflexivity|].
  cbn [fst snd ended_spans body jsonify]. repeat split.
Qed.

(** Each product handler appends exactly one record to the log, a
    warning exactly when it answers 404 and an INFO line otherwise; the
    health check logs nothing. *)
Theorem one_log_record_per_product_request
    (r : Route) (request : Request) (w : World) :
  if is_product_route r
  then exists msg,
         logger (snd (view r request w)) =
           logger w ++
             [(if (status (fst (view r request w)) =? 404)%Z
               then WARNING else INFO, msg)]
  else logger (snd (view r request w)) = logger w.
Proof.
  destruct (is_product_route r) eqn:Ep.
  - assert (exists lo hi n, sleep_range r = Some (lo, hi) /\
                            route_span_name r = Some n)
      as (lo & hi & n & Er & En).
    { destruct r; try discriminate Ep; do 3 eexists; split; reflexivity. }
    destruct (product_route_run r request w lo hi n Er En)
      as (attrs & level & msg & Hw & _ & _ & _ & Hl).
    exists msg. rewrite Hw. cbn [logger]. now rewrite Hl.
  - destruct r; try discriminate Ep. reflexivity.
Qed.

(** The response of a handler does not depend on the world it runs in
    (clock, random source, telemetry recorded so far) nor on the method
    and url of the request: the same route with the same query arguments
    gets the same response. *)
Theorem response_independent_of_world
    (r : Route) (request1 request2 : Request) (w1 w2 : World)
    (Hargs : args request1 = args request2) :
  fst (view r request1 w1) = fst (view r request2 w2).
Proof.
  destruct r as [| |x|]; cbn [view].
  - reflexivity.
  - reflexivity.
  - now rewrite !get_product_response.
  - rewrite !search_products_response. cbv zeta. now rewrite Hargs.
Qed.

Lemma response_independent_of_world_witness :
  fst (view RSearch (mkRequest "GET" "/products/search?q=Lens" [("q", "Lens")])
         fresh_world) =
  fst (view RSearch (mkRequest "HEAD" "http://host/products/search?q=Lens"
                       [("q", "Lens")])
         (snd (view (RProduct "NOPE") (plain_request "/products/NOPE")
                 fresh_world))).
Proof.
  apply response_independent_of_world. reflexivity.
Defined.

(* ===================================================================== *)
(** ** More on lookup and search *)
(* ===================================================================== *)

Lemma lower_char_twice (c : ascii) :
  Str.lower_char (Str.lower_char c) = Str.lower_char c.
Proof. StrFacts.each_char c; reflexivity. Qed.

Lemma lower_twice (s : string) : Str.lower (Str.lower s) = Str.lower s.
Proof.
  induction s as [|c s IH]; simpl; [reflexivity|].
  now rewrite lower_char_twice, IH.
Qed.

Lemma lower_preserves_length (s : string) :
  String.length (Str.lower s) = String.length s.
Proof. induction s as [|c s IH]; simpl; [reflexivity | now rewrite IH]. Qed.

Lemma str_app_assoc (a b c : string) :
  ((a ++ b) ++ c = a ++ (b ++ c))%string.
Proof. induction a as [|x a IH]; simpl; [reflexivity | now rewrite IH]. Qed.

Lemma str_app_length (a b : string) :
  String.length (a ++ b) = (String.length a + String.length b)%nat.
Proof. induction a as [|x a IH]; simpl; [reflexivity | now rewrite IH]. Qed.

Lemma Substring_trans (a b c : string) :
  Str.Substring a b -> Str.Substring b c -> Str.Substring a c.
Proof.
  intros (p1 & s1 & ->) (p2 & s2 & ->).
  exists (p2 ++ p1)%string, (s1 ++ s2)%string.
  now rewrite !str_app_assoc.
Qed.

Lemma Substring_lower (a b : string) :
  Str.Substring a b -> Str.Substring (Str.lower a) (Str.lower b).
Proof.
  intros (p & s & ->). exists (Str.lower p), (Str.lower s).
  now rewrite !StrFacts.lower_app.
Qed.

Lemma Substring_length (a b : string) :
  Str.Substring a b -> (String.length a <= String.length b)%nat.
Proof.
  intros (p & s & ->). rewrite !str_app_length. lia.
Qed.

Lemma Matches_narrower (q1 q2 : string) (p : Product) :
  Str.Substring q1 q2 -> Matches q2 p -> Matches q1 p.
Proof.
  intros H [Hn | [Hd | (cat & Hin & Hc)]].
  - left. eapply Substring_trans; eassumption.
  - right; left. eapply Substring_trans; eassumption.
  - right; right. exists cat. split; [exact Hin|].
    eapply Substring_trans; eassumption.
Qed.

Lemma filter_Subseq_filter {A} (f g : A -> bool) (l : list A) :
  (forall x, In x l -> f x = true -> g x = true) ->
  Subseq (filter f l) (filter g l).
Proof.
  induction l as [|a l IH]; intros H; simpl; [constructor|].
  assert (IH' : Subseq (filter f l) (filter g l)).
  { apply IH. intros x Hx. apply H. now right. }
  destruct (f a) eqn:Ef.
  - rewrite (H a (or_introl eq_refl) Ef). now constructor.
  - destruct (g a); [now constructor | exact IH'].
Qed.

Lemma Subseq_length {A} (l1 l2 : list A) :
  Subseq l1 l2 -> (length l1 <= length l2)%nat.
Proof. induction 1; simpl; lia. Qed.

Lemma Subseq_In {A} (l1 l2 : list A) (x : A) :
  Subseq l1 l2 -> In x l1 -> In x l2.
Proof.
  induction 1; simpl; [tauto | |]; intros Hin.
  - destruct Hin; [now left | right; auto].
  - right; auto.
Qed.

Lemma Subseq_map {A B} (f : A -> B) (l1 l2 : list A) :
  Subseq l1 l2 -> Subseq (map f l1) (map f l2).
Proof. induction 1; simpl; now constructor. Qed.

Lemma Subseq_NoDup {A} (l1 l2 : list A) :
  Subseq l1 l2 -> NoDup l2 -> NoDup l1.
Proof.
  induction 1; intros Hnd; [constructor | |].
  - inversion Hnd as [|? ? Hx Hl]; subst. constructor; [|now apply IHSubseq].
    intros Hin. apply Hx. eapply Subseq_In; eassumption.
  - inversion Hnd; subst. now apply IHSubseq.
Qed.

(** Over any list of products, also one with repeated ids, the lookup
    returns the first product with the requested id, and returns nothing
    exactly when no product has it. *)
Theorem next_by_id_first_match
    (before after : list Product) (p : Product)
    (Hbefore : forall p', In p' before -> id p' <> id p) :
  next_by_id (before ++ p :: after) (id p) = Some p /\
  (forall products x,
     next_by_id products x = None <->
     forall p', In p' products -> id p' <> x).
Proof.
  split; [|intros products x; apply next_by_id_None].
  induction before as [|a l IH]; simpl.
  - now rewrite String.eqb_refl.
  - destruct (String.eqb_spec (id a) (id p)) as [E|_].
    + destruct (Hbefore a (or_introl eq_refl) E).
    + apply IH. intros p' Hp'. apply Hbefore. now right.
Qed.

Lemma next_by_id_first_match_witness :
  next_by_id
    [mkProduct "A" "first" "" "" (mkMoney "USD" 1 0) [];
     mkProduct "B" "second" "" "" (mkMoney "USD" 2 0) [];
     mkProduct "B" "third" "" "" (mkMoney "USD" 3 0) []] "B" =
  Some (mkProduct "B" "second" "" "" (mkMoney "USD" 2 0) []).
Proof.
  refine (proj1 (next_by_id_first_match
                   [mkProduct "A" "first" "" "" (mkMoney "USD" 1 0) []]
                   [mkProduct "B" "third" "" "" (mkMoney "USD" 3 0) []]
                   (mkProduct "B" "second" "" "" (mkMoney "USD" 2 0) []) _)).
  intros p' [<- | []]. discriminate.
Defined.

(** A longer query narrows the search: when the query of one request is
    a substring of the query of another, the products returned for the
    longer query are a subsequence of those returned for the shorter
    one, and the total is not larger. *)
Theorem search_products_narrows
    (request1 request2 : Request) (w1 w2 : World)
    (Hq : Str.Substring (args_get "q" "" (args request1))
                        (args_get "q" "" (args request2))) :
  exists result1 result2 : list Product,
    fst (search_products request1 w1) =
      jsonify (search_body (Str.lower (args_get "q" "" (args request1)))
                 result1) /\
    fst (search_products request2 w2) =
      jsonify (search_body (Str.lower (args_get "q" "" (args request2)))
                 result2) /\
    Subseq result2 result1 /\
    (Z.of_nat (length result2) <= Z.of_nat (length result1))%Z.
Proof.
  do 2 eexists. rewrite !search_products_response. cbv zeta.
  split; [reflexivity|]. split; [reflexivity|].
  assert (S : Subseq
                (filtered_products (Str.lower (args_get "q" "" (args request2))))
                (filtered_products (Str.lower (args_get "q" "" (args request1))))).
  { rewrite !filtered_products_filter. apply filter_Subseq_filter.
    intros p _. rewrite !query_in_product_spec.
    apply Matches_narrower, Substring_lower, Hq. }
  split; [exact S|]. apply Nat2Z.inj_le, Subseq_length, S.
Qed.

Lemma search_products_narrows_witness :
  exists result1 result2 : list Product,
    fst (search_products (search_request "Vintage") fresh_world) =
      jsonify (search_body "vintage" result1) /\
    fst (search_products (search_request "Vintage Camera") fresh_world) =
      jsonify (search_body "vintage camera" result2) /\
    Subseq result2 result1.
Proof.
  destruct (search_products_narrows
              (search_request "Vintage") (search_request "Vintage Camera")
              fresh_world fresh_world)
    as (result1 & result2 & H1 & H2 & HS & _).
  - exists ""%string, " Camera"%string. reflexivity.
  - exists result1, result2. split; [exact H1|]. split; [exact H2 | exact HS].
Defined.

(** Sending back the [query] that a search response echoes gives the
    same response again: the echoed query is already lowercase. *)
Theorem search_products_echo_round_trip
    (request : Request) (w w' : World) (m u : string) :
  forall echoed products total,
    body (fst (search_products request w)) =
      JObj [("query", JStr echoed); ("products", products); ("total", total)]
    ->
    fst (search_products (mkRequest m u [("q", echoed)]) w') =
    fst (search_products request w).
Proof.
  intros echoed products total.
  rewrite !search_products_response. cbv zeta.
  cbn [body jsonify search_body args args_get String.eqb Ascii.eqb
       Bool.eqb].
  intros [= <- _ _]. now rewrite lower_twice.
Qed.

Lemma search_products_echo_round_trip_witness :
  fst (search_products (search_request "kitchen") fresh_world) =
  fst (search_products (search_request "KitCHEN") fresh_world).
Proof.
  apply (search_products_echo_round_trip
           (search_request "KitCHEN") fresh_world fresh_world
           "GET" "/products/search" "kitchen"
           (JArr (map product_json (filtered_products "kitchen")))
           (JInt (len (filtered_products "kitchen")))).
  reflexivity.
Defined.

(** No search returns a product twice or a product that is not in the
    catalog: the ids of the products returned are pairwise distinct and
    the total is at most the size of the catalog. *)
Theorem search_products_no_duplicates (request : Request) (w : World) :
  exists result : list Product,
    body (fst (search_products request w)) =
      JObj [("query", JStr (Str.lower (args_get "q" "" (args request))));
            ("products", JArr (map product_json result));
            ("total", JInt (Z.of_nat (length result)))] /\
    NoDup (map id result) /\
    (forall p, In p result -> In p PRODUCTS) /\
    (0 <= Z.of_nat (length result) <= Z.of_nat (length PRODUCTS))%Z.
Proof.
  rewrite search_products_response. cbv zeta.
  eexists. split; [reflexivity|].
  pose proof (filter_Subseq PRODUCTS
                (query_in_product
                   (Str.lower (args_get "q" "" (args request))))) as HS.
  rewrite <- filtered_products_filter in HS.
  split; [|split].
  - eapply Subseq_NoDup; [apply Subseq_map, HS | exact PRODUCTS_ids_NoDup].
  - intros p. apply Subseq_In, HS.
  - apply Subseq_length in HS. lia.
Qed.

Lemma contains_length (q s : string) :
  Str.contains q s = true -> (String.length q <= String.length s)%nat.
Proof.
  intros H. apply Substring_length. now apply StrFacts.contains_spec.
Qed.

Lemma fold_max_le (n : nat) (l : list nat) (x : nat) :
  In x l -> (x <= fold_right Nat.max n l)%nat.
Proof.
  induction l as [|a l IH]; simpl; [tauto|].
  intros [-> | H]; [lia | specialize (IH H); lia].
Qed.

Lemma fold_max_base (n : nat) (l : list nat) :
  (n <= fold_right Nat.max n l)%nat.
Proof. induction l as [|a l IH]; simpl; lia. Qed.

Lemma query_in_product_width (q : string) (p : Product) :
  query_in_product q p = true -> (String.length q <= text_width p)%nat.
Proof.
  unfold query_in_product, text_width.
  rewrite !orb_true_iff, existsb_exists.
  pose proof (fold_max_base
                (Nat.max (String.length (name p))
                   (String.length (description p)))
                (map String.length (categories p))) as Hb.
  intros [[H | H] | (cat & Hin & H)]; apply contains_length in H;
    rewrite lower_preserves_length in H.
  - lia.
  - lia.
  - pose proof (fold_max_le
                  (Nat.max (String.length (name p))
                     (String.length (description p)))
                  (map String.length (categories p))
                  (String.length cat) (in_map _ _ _ Hin)).
    lia.
Qed.

(** A product is returned by the search only if the query is no longer
    than the longest of its name, description and category tags; the
    longest such text of the catalog has 70 characters, so a query of
    more than 70 characters gets an empty list and total 0. *)
Theorem search_products_long_query (request : Request) (w : World) :
  let q := args_get "q" "" (args request) in
  (forall p, In p (filtered_products (Str.lower q)) ->
             (String.length q <= text_width p)%nat) /\
  ((70 < String.length q)%nat ->
   fst (search_products request w) =
     mkResponse 200
       (JObj [("query", JStr (Str.lower q)); ("products", JArr []);
              ("total", JInt 0)])).
Proof.
  intros q.
  assert (Hw : forall p, In p (filtered_products (Str.lower q)) ->
                         (String.length q <= text_width p)%nat).
  { intros p. rewrite filtered_products_filter, filter_In.
    intros [_ H]. apply query_in_product_width in H.
    now rewrite lower_preserves_length in H. }
  split; [exact Hw|]. intros Hlen.
  rewrite search_products_response. fold q. cbv zeta.
  destruct (filtered_products (Str.lower q)) as [|p l] eqn:E; [reflexivity|].
  exfalso.
  assert (Hp : In p (filtered_products (Str.lower q))) by (rewrite E; now left).
  pose proof (Hw p (or_introl eq_refl)) as Hle.
  apply filtered_products_spec in Hp. destruct Hp as [Hp _].
  assert (Hmax : (text_width p <= 70)%nat).
  { clear -Hp. unfold PRODUCTS in Hp. simpl in Hp.
    repeat (destruct Hp as [<-|Hp]; [vm_compute; lia|]). destruct Hp. }
  lia.
Qed.

Lemma search_products_long_query_witness :
  let q := "a product with a description that is a good deal longer than any in the catalog"%string in
  fst (search_products (search_request q) fresh_world) =
    mkResponse 200
      (JObj [("query", JStr q); ("products", JArr []); ("total", JInt 0)]).
Proof.
  intros q.
  apply (proj2 (search_products_long_query (search_request q) fresh_world)).
  vm_compute. lia.
Defined.

(* ===================================================================== *)
(** ** Requests served in sequence *)
(* ===================================================================== *)

Lemma serve_cons (r : Route) (request : Request)
    (rest : list (Route * Request)) (w : World) :
  serve ((r, request) :: rest) w =
  (fst (view r request w) :: fst (serve rest (snd (view r request w))),
   snd (serve rest (snd (view r request w)))).
Proof.
  cbn [serve]. unfold bind, ret.
  destruct (view r request w) as [response w1]. cbn [fst snd].
  now destruct (serve rest w1).
Qed.

(** What one request adds to the two instruments. *)
Lemma view_points (r : Route) (request : Request) (w : World) :
  exists (points : list (Z * Labels)) (durations : list (Q * Labels)),
    request_counter (snd (view r request w)) = request_counter w ++ points /\
    request_duration (snd (view r request w)) =
      request_duration w ++ durations /\
    map snd durations = map snd points /\
    length points = (if is_product_route r then 1 else 0)%nat /\
    Forall (fun point => fst point = 1%Z) points /\
    length (filter (has_status "not_found") points) =
      (if (status (fst (view r request w)) =? 404)%Z then 1 else 0)%nat /\
    (status (fst (view r request w)) = 200 \/
     status (fst (view r request w)) = 404)%Z.
Proof.
  destruct r as [| |x|]; cbn [view is_product_route].
  - exists [], []. rewrite !app_nil_r. cbn. repeat split; auto.
  - rewrite list_products_run. cbn [fst snd request_counter request_duration].
    do 2 eexists. split; [reflexivity|]. split; [reflexivity|].
    cbn. repeat split; auto.
  - destruct (next_by_id PRODUCTS x) as [p|] eqn:E.
    + rewrite (get_product_run_hit request x w p E).
      cbn [fst snd request_counter request_duration].
      do 2 eexists. split; [reflexivity|]. split; [reflexivity|].
      cbn. repeat split; auto.
    + rewrite (get_product_run_miss request x w E).
      cbn [fst snd request_counter request_duration].
      do 2 eexists. split; [reflexivity|]. split; [reflexivity|].
      cbn. repeat split; auto.
  - rewrite search_products_run.
    cbn [fst snd request_counter request_duration].
    do 2 eexists. split; [reflexivity|]. split; [reflexivity|].
    cbn. repeat split; auto.
Qed.

(** Serving any list of requests one after the other gives one response
    per request, each with status 200 or 404, and keeps what the
    instruments held before. The counter gains one point of amount 1 per
    request to a product route and none per health check; the duration
    histogram gains as many points, with the same labels in the same
    order; and the points labelled [not_found] are as many as the
    responses with status 404. *)
Theorem serve_measures_each_product_request
    (requests : list (Route * Request)) (w : World) :
  let responses := fst (serve requests w) in
  let w' := snd (serve requests w) in
  length responses = length requests /\
  Forall (fun response => status response = 200%Z \/
                          status response = 404%Z) responses /\
  exists (points : list (Z * Labels)) (durations : list (Q * Labels)),
    request_counter w' = request_counter w ++ points /\
    request_duration w' = request_duration w ++ durations /\
    map snd durations = map snd points /\
    length points =
      length (filter (fun rr => is_product_route (fst rr)) requests) /\
    Forall (fun point => fst point = 1%Z) points /\
    length (filter (has_status "not_found") points) =
      length (filter (fun response => (status response =? 404)%Z) responses).
Proof.
  cbv zeta. revert w.
  induction requests as [|[r request] rest IH]; intros w.
  - cbn. split; [reflexivity|]. split; [constructor|].
    exists [], []. rewrite !app_nil_r. repeat split; constructor.
  - rewrite serve_cons. cbn [fst snd length].
    destruct (view_points r request w)
      as (p1 & d1 & Hc1 & Hd1 & Hl1 & Hn1 & Ha1 & Hs1 & Hst).
    destruct (IH (snd (view r request w)))
      as (Hlen & Hall & p2 & d2 & Hc2 & Hd2 & Hl2 & Hn2 & Ha2 & Hs2).
    split; [now rewrite Hlen|]. split; [now constructor|].
    exists (p1 ++ p2), (d1 ++ d2).
    split; [now rewrite Hc2, Hc1, app_assoc|].
    split; [now rewrite Hd2, Hd1, app_assoc|].
    split; [now rewrite !map_app, Hl1, Hl2|].
    split; [|split].
    + rewrite length_app, Hn1, Hn2. cbn [filter fst].
      now destruct (is_product_route r).
    + apply Forall_app. now split.
    + rewrite filter_app, length_app, Hs1, Hs2. cbn [filter].
      now destruct (status (fst (view r request w)) =? 404)%Z.
Qed.

(** Whatever the list handler or a search returns can be fetched by its
    id: for every product in the body of a list or search response, the
    get-by-id handler applied to that product's id answers 200 with the
    same JSON object. *)
Theorem returned_products_can_be_fetched
    (request request' : Request) (w w' : World) :
  (exists listed : list Product,
     body (fst (list_products request w)) =
       JObj [("products", JArr (map product_json listed))] /\
     Forall (fun p => fst (get_product request' (id p) w') =
                      mkResponse 200 (product_json p)) listed) /\
  (exists result : list Product,
     body (fst (search_products request w)) =
       JObj [("query", JStr (Str.lower (args_get "q" "" (args request))));
             ("products", JArr (map product_json result));
             ("total", JInt (Z.of_nat (length result)))] /\
     Forall (fun p => fst (get_product request' (id p) w') =
                      mkResponse 200 (product_json p)) result).
Proof.
  assert (F : forall p, In p PRODUCTS ->
                fst (get_product request' (id p) w') =
                mkResponse 200 (product_json p)).
  { intros p Hp. rewrite get_product_response.
    now rewrite (next_by_id_unique PRODUCTS p PRODUCTS_ids_NoDup Hp). }
  split.
  - exists PRODUCTS. split; [reflexivity|]. now apply Forall_forall.
  - eexists. rewrite search_products_response. split; [reflexivity|].
    apply Forall_forall. intros p Hp. apply F.
    now apply filtered_products_spec in Hp.
Qed.

(* ===================================================================== *)
(** ** The echoed query beyond Latin-1 *)
(* ===================================================================== *)

Module WideFacts.

Lemma eqb_Latin1 (a b : ascii) :
  Wide.eqb (Wide.Latin1 a) (Wide.Latin1 b) = Ascii.eqb a b.
Proof.
  unfold Wide.eqb, Wide.codepoint.
  destruct (Ascii.eqb_spec a b) as [->|Hne].
  - apply N.eqb_refl.
  - apply N.eqb_neq. intros H. apply Hne.
    now rewrite <- (ascii_N_embedding a), <- (ascii_N_embedding b), H.
Qed.

Lemma lower_of_string (s : string) :
  Wide.lower (Wide.of_string s) = Wide.of_string (Str.lower s).
Proof. induction s as [|c s IH]; simpl; [reflexivity | now rewrite IH]. Qed.

Lemma startswith_of_string (q s : string) :
  Wide.startswith (Wide.of_string q) (Wide.of_string s) = Str.startswith q s.
Proof.
  revert s; induction q as [|a q IH]; intros [|b s]; simpl; try reflexivity.
  now rewrite eqb_Latin1, IH.
Qed.

Lemma contains_of_string (q s : string) :
  Wide.contains (Wide.of_string q) (Wide.of_string s) = Str.contains q s.
Proof.
  induction s as [|b s IH].
  - pose proof (startswith_of_string q "") as H. simpl in H |- *.
    now rewrite H.
  - pose proof (startswith_of_string q (String b s)) as H.
    cbn [Wide.of_string Wide.contains Str.contains] in H |- *.
    now rewrite H, IH.
Qed.

Lemma truthy_of_string (s : string) :
  Wide.truthy (Wide.of_string s) = Str.truthy s.
Proof. destruct s; reflexivity. Qed.

Lemma eqb_string_of_string (a b : string) :
  Wide.eqb_string (Wide.of_string a) (Wide.of_string b) = String.eqb a b.
Proof.
  revert b; induction a as [|x a IH]; intros [|y b]; simpl; try reflexivity.
  now rewrite eqb_Latin1, IH.
Qed.

Lemma args_get_of_args (key default : string) (a : list (string * string)) :
  Wide.args_get (Wide.of_string key) (Wide.of_string default)
    (Wide.of_args a) =
  Wide.of_string (args_get key default a).
Proof.
  induction a as [|[k v] a IH]; simpl; [reflexivity|].
  rewrite eqb_string_of_string. now destruct (String.eqb k key).
Qed.

Lemma query_in_product_of_string (q : string) (p : Product) :
  Wide.query_in_product (Wide.of_string q) p = query_in_product q p.
Proof.
  unfold Wide.query_in_product, query_in_product.
  rewrite !lower_of_string, !contains_of_string. f_equal.
  induction (categories p) as [|cat l IH]; simpl; [reflexivity|].
  now rewrite lower_of_string, contains_of_string, IH.
Qed.

(** On the first 256 code points the wider response is the response of
    the handler. *)
Lemma search_products_body_agrees (request : Request) (w : World) :
  let q := Str.lower (args_get "q" "" (args request)) in
  let wide := Wide.search_products_body (Wide.of_args (args request)) in
  Wide.query wide = Wide.of_string q /\
  fst (search_products request w) =
    jsonify (search_body q (Wide.products wide)) /\
  Wide.total wide = len (Wide.products wide).
Proof.
  cbv zeta. unfold Wide.search_products_body.
  rewrite args_get_of_args, lower_of_string, truthy_of_string.
  cbn [Wide.query Wide.products Wide.total].
  split; [reflexivity|]. split; [|reflexivity].
  rewrite search_products_response. cbv zeta. unfold filtered_products.
  destruct (Str.truthy _); [|reflexivity].
  do 2 f_equal. apply filter_ext. intros p.
  symmetry. apply query_in_product_of_string.
Qed.

(** A character that lowercasing changes is replaced by a string that
    does not start with it. *)
Lemma lower_char_changed (c : Wide.uchar) (rest rest' : Wide.ustring) :
  Wide.lower_char c <> [c] -> Wide.lower_char c ++ rest <> c :: rest'.
Proof.
  destruct c as [a| | | | |]; simpl; intros Hne H;
    try discriminate H; try (now apply Hne).
  injection H as Ha _. apply Hne. now rewrite Ha.
Qed.

Lemma lower_changes (c : Wide.uchar) (s : Wide.ustring) :
  In c s -> Wide.lower_char c <> [c] -> Wide.lower s <> s.
Proof.
  intros Hin Hne. induction s as [|a s IH]; [destruct Hin|].
  cbn [Wide.lower].
  assert (D : Wide.lower_char a = [a] \/ Wide.lower_char a <> [a]).
  { destruct a as [x| | | | |]; simpl;
      try (left; reflexivity); try (right; discriminate).
    destruct (Ascii.eqb_spec (Str.lower_char x) x) as [->|Hx];
      [now left | right; intros [= H]; now apply Hx]. }
  destruct D as [Ea | Na].
  - rewrite Ea. cbn [app]. intros [= H].
    destruct Hin as [-> | Hin]; [now apply Hne | now apply IH].
  - now apply lower_char_changed.
Qed.

Lemma upper_unchanged (c : Wide.uchar) :
  Wide.isupper_char c = true ->
  (Wide.lower_char c = [c] <-> c = Wide.U03D2 \/ c = Wide.U2102).
Proof.
  destruct c as [a| | | | |]; simpl; intros Hup; try discriminate Hup.
  - split.
    + intros [= H]. destruct (StrFacts.lower_char_upper a Hup H).
    + intros [H | H]; discriminate H.
  - split; [discriminate | intros [H | H]; discriminate H].
  - split; [now left | reflexivity].
  - split; [now right | reflexivity].
  - split; [discriminate | intros [H | H]; discriminate H].
Qed.

Lemma args_get_absent (key default : Wide.ustring)
    (a : list (Wide.ustring * Wide.ustring)) :
  (forall k v, In (k, v) a -> Wide.eqb_string k key = false) ->
  Wide.args_get key default a = default.
Proof.
  induction a as [|[k v] a IH]; simpl; intros H; [reflexivity|].
  rewrite (H k v (or_introl eq_refl)). apply IH.
  intros k' v' Hin. apply (H k' v'). now right.
Qed.

(** The query [q] made of the one character U+03D2, an uppercase letter
    that has no lowercase form, is echoed as it was sent. *)
Lemma upsilon_hook_is_echoed_unchanged :
  Wide.isupper_char Wide.U03D2 = true /\
  Wide.codepoint Wide.U03D2 = 978%N /\
  Wide.query
    (Wide.search_products_body [(Wide.of_string "q", [Wide.U03D2])]) =
    [Wide.U03D2] /\
  ~ Wide.echo_differs_on_uppercase.
Proof.
  split; [reflexivity|]. split; [reflexivity|]. split; [reflexivity|].
  intros H.
  apply (H [(Wide.of_string "q", [Wide.U03D2])] Wide.U03D2).
  - now left.
  - reflexivity.
  - reflexivity.
Qed.

(** C10, amended. The [query] field of the search response is the
    lowercased [q], not [q] as the client sent it, and it is the empty
    string when the request has no [q]. Whenever [q] contains a
    character that lowercasing changes, in particular an uppercase
    letter that has a lowercase form, the echoed query differs from [q];
    an uppercase letter without a lowercase form (U+03D2, U+2102) is
    echoed as it is. On the first 256 code points this is the response
    of the handler. *)
Theorem search_products_echoes_the_lowered_query
    (a : list (Wide.ustring * Wide.ustring)) :
  let q := Wide.args_get (Wide.of_string "q") (Wide.of_string "") a in
  Wide.query (Wide.search_products_body a) = Wide.lower q /\
  (forall c, In c q -> Wide.lower_char c <> [c] ->
             Wide.query (Wide.search_products_body a) <> q) /\
  (forall c, In c q -> Wide.isupper_char c = true ->
             c <> Wide.U03D2 -> c <> Wide.U2102 ->
             Wide.query (Wide.search_products_body a) <> q) /\
  ((forall c, In c q -> Wide.lower_char c = [c]) ->
   Wide.query (Wide.search_products_body a) = q) /\
  ((forall k v, In (k, v) a ->
                Wide.eqb_string k (Wide.of_string "q") = false) ->
   Wide.query (Wide.search_products_body a) = []) /\
  (forall (request : Request) (w : World),
     a = Wide.of_args (args request) ->
     body (fst (search_products request w)) =
       JObj [("query", JStr (Str.lower (args_get "q" "" (args request))));
             ("products",
              JArr (map product_json
                      (Wide.products (Wide.search_products_body a))));
             ("total", JInt (Wide.total (Wide.search_products_body a)))] /\
     Wide.query (Wide.search_products_body a) =
       Wide.of_string (Str.lower (args_get "q" "" (args request)))).
Proof.
  intros q.
  assert (E : Wide.query (Wide.search_products_body a) = Wide.lower q)
    by reflexivity.
  split; [exact E|]. rewrite E.
  split; [|split; [|split; [|split]]].
  - intros c. apply lower_changes.
  - intros c Hin Hup H1 H2. apply (lower_changes c q Hin).
    intros Hl. apply (upper_unchanged c Hup) in Hl. tauto.
  - clear E. induction q as [|x q IH]; intros H; [reflexivity|].
    cbn [Wide.lower]. rewrite (H x (or_introl eq_refl)). cbn [app].
    f_equal. apply IH. intros c Hc. apply H. now right.
  - intros H. subst q. now rewrite (args_get_absent _ _ a H).
  - intros request w ->.
    destruct (search_products_body_agrees request w) as (Hq & Hr & Ht).
    cbv zeta in Hq, Hr, Ht. rewrite Hr, Ht. split; [reflexivity|].
    rewrite <- Hq. reflexivity.
Qed.

Lemma search_products_echoes_the_lowered_query_witness :
  Wide.query
    (Wide.search_products_body
       [(Wide.of_string "q", [Wide.U212A; Wide.Latin1 "g"])]) <>
    [Wide.U212A; Wide.Latin1 "g"] /\
  Wide.query
    (Wide.search_products_body
       [(Wide.of_string "q", [Wide.U2102; Wide.Latin1 "g"])]) =
    [Wide.U2102; Wide.Latin1 "g"] /\
  Wide.query (Wide.search_products_body []) = [].
Proof.
  split; [|split].
  - apply (proj1 (proj2 (proj2
             (search_products_echoes_the_lowered_query
                [(Wide.of_string "q", [Wide.U212A; Wide.Latin1 "g"])])))
             Wide.U212A).
    + now left.
    + reflexivity.
    + discriminate.
    + discriminate.
  - apply (proj1 (proj2 (proj2 (proj2
             (search_products_echoes_the_lowered_query
                [(Wide.of_string "q", [Wide.U2102; Wide.Latin1 "g"])]))))).
    intros c [<- | [<- | []]]; reflexivity.
  - apply (proj1 (proj2 (proj2 (proj2 (proj2
             (search_products_echoes_the_lowered_query [])))))).
    intros k v [].
Defined.

End WideFacts.
